(** * go-tfe: the variables endpoint (variable.go)

    A shallow embedding of the [Variables] service of go-tfe: the option
    structures and their [valid] methods, and the four operations [List],
    [Create], [Update] and [Delete] written over the two methods of the
    client they delegate to, [newRequest] and [do].

    The client runtime (tfe.go) is not part of the verified unit: it is an
    interface here, and every theorem holds for every implementation of it.
    Go returns [(result, error)] pairs with nil-able components; the model
    keeps the pairs as they are, so that "result is nil when the error is
    not" is a property to prove and not a consequence of a sum type. *)

From stdpp Require Import gmap strings list.

Set Default Proof Using "Type".

(** ** Go values *)

(** A heap address. The only objects whose address the code takes are the
    option structures received as parameters ([&options]). *)
Abbreviation loc := positive (only parsing).

(** A Go slice is nil or holds its elements; [append] never returns nil. *)
Definition slice (A : Type) : Type := option (list A).

Definition elems {A} (s : slice A) : list A :=
  match s with
  | None => []
  | Some l => l
  end.

Definition len {A} (s : slice A) : nat := length (elems s).

Definition append {A} (s : slice A) (x : A) : slice A := Some (elems s ++ [x]).

(** [p == nil] on a nullable reference. *)
Definition is_nil {A} (p : option A) : bool :=
  match p with
  | None => true
  | Some _ => false
  end.

(** The outcome of running Go code: it returns a value or it panics (a
    failed type assertion, a dangling address). *)
Inductive Result (A : Type) : Type :=
  | Val (a : A)
  | Panicked.
Arguments Val {A} a.
Arguments Panicked {A}.

(** [CategoryType] is a string type with two named constants. *)
Definition CategoryType : Type := string.
Definition CategoryEnv : CategoryType := "env".
Definition CategoryTerraform : CategoryType := "terraform".

(** Modelled from the spec: the helper [validString] (validations of the
    package, outside variable.go) is the "non-empty-string check" applied
    to a nullable string reference: it fails when the reference is absent
    or the string is empty. *)
Definition validString (v : option string) : bool :=
  match v with
  | None => false
  | Some s => bool_decide (s ≠ "")
  end.

(** Types declared outside variable.go, on which the code does not depend. *)
Class Externals : Type := {
  Workspace : Type;     (* struct Workspace *)
  ListOptions : Type;   (* struct ListOptions: page number and page size *)
  Request : Type;       (* http.Request *)
  Dyn : Type;           (* the values of every other dynamic type *)
  Conn : Type           (* what lies behind the client: the network, the server *)
}.

Section Tfe.

Context {ext : Externals}.

(** *** Errors *)

Inductive GoError : Type :=
  | errors_New (text : string)
  | error_other (e : Dyn).

(** The [error] interface: nil or an error value. *)
Definition error : Type := option GoError.

(** *** The data model *)

Record Variable_ : Type := mkVariable {
  v_ID : string;
  v_Key : string;
  v_Value : string;
  v_Category : CategoryType;
  v_HCL : bool;
  v_Sensitive : bool;
  v_Workspace : option Workspace
}.

(** [Variable{}] *)
Definition zero_Variable : Variable_ :=
  mkVariable "" "" "" "" false false None.

Record VariableListOptions : Type := mkVariableListOptions {
  lo_ListOptions : ListOptions;
  lo_Organization : option string;
  lo_Workspace : option string
}.

Record VariableCreateOptions : Type := mkVariableCreateOptions {
  co_ID : string;
  co_Key : option string;
  co_Value : option string;
  co_Category : option CategoryType;
  co_HCL : option bool;
  co_Sensitive : option bool;
  co_Workspace : option Workspace
}.

Record VariableUpdateOptions : Type := mkVariableUpdateOptions {
  uo_ID : string;
  uo_Key : option string;
  uo_Value : option string;
  uo_Category : option CategoryType;
  uo_HCL : option bool;
  uo_Sensitive : option bool
}.

(** [options.ID = id] on a create options structure. *)
Definition co_set_ID (id : string) (o : VariableCreateOptions) : VariableCreateOptions :=
  mkVariableCreateOptions id (co_Key o) (co_Value o) (co_Category o)
                          (co_HCL o) (co_Sensitive o) (co_Workspace o).

(** [options.ID = id] on an update options structure. *)
Definition uo_set_ID (id : string) (o : VariableUpdateOptions) : VariableUpdateOptions :=
  mkVariableUpdateOptions id (uo_Key o) (uo_Value o) (uo_Category o)
                          (uo_HCL o) (uo_Sensitive o).

(** [VariableListOptions.valid] *)
Definition VariableListOptions_valid (o : VariableListOptions) : error :=
  if negb (validString (lo_Organization o)) then
    Some (errors_New "Organization is required")
  else if negb (validString (lo_Workspace o)) then
    Some (errors_New "Workspace is required")
  else None.

(** [VariableCreateOptions.valid] *)
Definition VariableCreateOptions_valid (o : VariableCreateOptions) : error :=
  if negb (validString (co_Key o)) then
    Some (errors_New "Key is required")
  else if negb (validString (co_Value o)) then
    Some (errors_New "Value is required")
  else if is_nil (co_Category o) then
    Some (errors_New "Category is required")
  else if is_nil (co_Workspace o) then
    Some (errors_New "Workspace is required")
  else None.

(** *** The store, the client and the monad of Go code *)

(** What an address can hold: an option structure of one of the three
    kinds (the caller's variables and the callee's parameters). *)
Inductive Obj : Type :=
  | ObjList (o : VariableListOptions)
  | ObjCreate (o : VariableCreateOptions)
  | ObjUpdate (o : VariableUpdateOptions).

(** [interface{}] as [do] returns it. *)
#[warnings="-register-all"]
Inductive any : Type :=
  | any_nil
  | any_VariablePtr (p : option Variable_)      (* *Variable, possibly a nil pointer *)
  | any_slice (l : list any)                    (* []interface{} *)
  | any_other (d : Dyn).

(** The [model] argument of [do]: the shape the response is decoded to. *)
Inductive Model : Type :=
  | model_nil                                           (* nil *)
  | model_VariablePtr (v : Variable_)                   (* &Variable{} *)
  | model_VariableSlice (s : list (option Variable_)).  (* []*Variable{} *)

(** The two methods of [Client] the service uses. [newRequest] reads its
    payload through the pointer it is given, so it receives the pointee as
    it is at the time of the call ([None] for a nil payload). Both may
    change what lies behind the client, and both return a Go pair. *)
Record Client : Type := mkClient {
  client_newRequest : string → string → option Obj → Conn → (option Request * error) * Conn;
  client_do : option Request → Model → Conn → (any * error) * Conn
}.

(** A record of every invocation of the client, in order. *)
Inductive Call : Type :=
  | CallNewRequest (method path : string) (v : option Obj)
  | CallDo (req : option Request) (model : Model).

Record World : Type := mkWorld {
  heap : gmap loc Obj;
  conn : Conn;
  calls : list Call
}.

Definition M (A : Type) : Type := World → Result A * World.

#[global] Instance M_ret : MRet M := λ A a w, (Val a, w).

#[global] Instance M_bind : MBind M := λ A B f m w,
  match m w with
  | (Val a, w') => f a w'
  | (Panicked, w') => (Panicked, w')
  end.

Definition panic {A} : M A := λ w, (Panicked, w).

(** A parameter whose address is taken lives in a cell of its own: the
    callee's copy of the argument, at an address nothing else uses. *)
Definition alloc (o : Obj) : M loc := λ w,
  let l := fresh (dom (heap w)) in
  (Val l, mkWorld (<[l := o]> (heap w)) (conn w) (calls w)).

Definition load (l : loc) : M Obj := λ w,
  match heap w !! l with
  | Some o => (Val o, w)
  | None => (Panicked, w)
  end.

Definition store (l : loc) (o : Obj) : M unit := λ w,
  (Val tt, mkWorld (<[l := o]> (heap w)) (conn w) (calls w)).

Definition load_list (l : loc) : M VariableListOptions :=
  o ← load l; match o with ObjList x => mret x | _ => panic end.

Definition load_create (l : loc) : M VariableCreateOptions :=
  o ← load l; match o with ObjCreate x => mret x | _ => panic end.

Definition load_update (l : loc) : M VariableUpdateOptions :=
  o ← load l; match o with ObjUpdate x => mret x | _ => panic end.

(** The structural identifier check [validStringID] of the package; the
    pattern it matches is declared outside variable.go. It takes a [*string]. *)
Variable validStringID : option string → bool.

(** The client of the service, [s.client]. *)
Variable client : Client.

(** [s.client.newRequest(method, path, v)] where [v] is nil or an address. *)
Definition newRequest (method path : string) (v : option loc) : M (option Request * error) := λ w,
  match (match v with
         | None => Some None
         | Some l => Some <$> heap w !! l
         end) with
  | None => (Panicked, w)
  | Some payload =>
      let '(r, c) := client_newRequest client method path payload (conn w) in
      (Val r, mkWorld (heap w) c (calls w ++ [CallNewRequest method path payload]))
  end.

(** [s.client.do(req, model)] *)
Definition do (req : option Request) (model : Model) : M (any * error) := λ w,
  let '(r, c) := client_do client req model (conn w) in
  (Val r, mkWorld (heap w) c (calls w ++ [CallDo req model])).

(** [v.( *Variable)] *)
Definition assert_VariablePtr (v : any) : M (option Variable_) :=
  match v with
  | any_VariablePtr p => mret p
  | _ => panic
  end.

(** [result.([]interface{})] *)
Definition assert_slice (v : any) : M (list any) :=
  match v with
  | any_slice l => mret l
  | _ => panic
  end.

(** *** The operations *)

(** The loop of [List]: [for _, v := range items { vs = append(vs, v.( *Variable)) }] *)
Fixpoint List_loop (items : list any) (vs : slice (option Variable_)) : M (slice (option Variable_)) :=
  match items with
  | [] => mret vs
  | v :: rest => p ← assert_VariablePtr v; List_loop rest (append vs p)
  end.

(** [Variables.List] *)
Definition List (options : VariableListOptions) : M (slice (option Variable_) * error) :=
  p ← alloc (ObjList options);
  o ← load_list p;
  match VariableListOptions_valid o with
  | Some err => mret (None, Some err)
  | None =>
    '(req, err) ← newRequest "GET" "vars" (Some p);
    match err with
    | Some err => mret (None, Some err)
    | None =>
      '(result, err) ← do req (model_VariableSlice []);
      match err with
      | Some err => mret (None, Some err)
      | None =>
        items ← assert_slice result;
        vs ← List_loop items None;
        mret (vs, None)
      end
    end
  end.

(** [Variables.Create] *)
Definition Create (options : VariableCreateOptions) : M (option Variable_ * error) :=
  p ← alloc (ObjCreate options);
  o ← load_create p;
  match VariableCreateOptions_valid o with
  | Some err => mret (None, Some err)
  | None =>
    o ← load_create p;
    store p (ObjCreate (co_set_ID "" o));;
    '(req, err) ← newRequest "POST" "vars" (Some p);
    match err with
    | Some err => mret (None, Some err)
    | None =>
      '(v, err) ← do req (model_VariablePtr zero_Variable);
      match err with
      | Some err => mret (None, Some err)
      | None =>
        v ← assert_VariablePtr v;
        mret (v, None)
      end
    end
  end.

(** [Variables.Update] *)
Definition Update (variableID : string) (options : VariableUpdateOptions) : M (option Variable_ * error) :=
  p ← alloc (ObjUpdate options);
  if negb (validStringID (Some variableID)) then
    mret (None, Some (errors_New "Invalid value for variable ID"))
  else
    o ← load_update p;
    store p (ObjUpdate (uo_set_ID variableID o));;
    '(req, err) ← newRequest "PATCH" ("vars/" +:+ variableID) (Some p);
    match err with
    | Some err => mret (None, Some err)
    | None =>
      '(v, err) ← do req (model_VariablePtr zero_Variable);
      match err with
      | Some err => mret (None, Some err)
      | None =>
        v ← assert_VariablePtr v;
        mret (v, None)
      end
    end.

(** [Variables.Delete] *)
Definition Delete (variableID : string) : M error :=
  if negb (validStringID (Some variableID)) then
    mret (Some (errors_New "Invalid value for variable ID"))
  else
    '(req, err) ← newRequest "DELETE" ("vars/" +:+ variableID) None;
    match err with
    | Some err => mret (Some err)
    | None =>
      '(_, err) ← do req model_nil;
      mret err
    end.

End Tfe.

(** ** A test double

    A concrete instance of the externals and of the client interface, with
    canned responses, on which the operations can be evaluated. *)
Module Sample.

Definition ext : Externals := {|
  Workspace := string;                       (* a workspace, by name *)
  ListOptions := nat * nat;                  (* page number, page size *)
  Request := string * string;                (* method and path *)
  Dyn := unit;
  Conn := nat                                (* the number of requests sent *)
|}.
#[local] Existing Instance ext.

Definition is_id_char (c : Ascii.ascii) : bool :=
  let n := Ascii.nat_of_ascii c in
  (48 <=? n) && (n <=? 57) || (65 <=? n) && (n <=? 90) || (97 <=? n) && (n <=? 122)
  || (n =? 45) || (n =? 46) || (n =? 95).

(** An identifier check: a non-empty run of letters, digits, '-', '.', '_'. *)
Definition validStringID (v : option string) : bool :=
  match v with
  | None => false
  | Some s => bool_decide (s ≠ "") && forallb is_id_char (String.list_ascii_of_string s)
  end.

(** A client that builds every request and answers every one of them with
    the variables [vars]: all of them for a slice model, the first one for
    a record model ("Resource not found" when there is none). *)
Definition client (vars : list Variable_) : Client := {|
  client_newRequest := λ method path _ n, ((Some (method, path), None), n);
  client_do := λ _ model n,
    match model with
    | model_nil => ((any_nil, None), S n)
    | model_VariableSlice _ => ((any_slice (any_VariablePtr ∘ Some <$> vars), None), S n)
    | model_VariablePtr _ =>
        match vars with
        | v :: _ => ((any_VariablePtr (Some v), None), S n)
        | [] => ((any_nil, Some (errors_New "Resource not found")), S n)
        end
    end
|}.

Definition world0 : World := mkWorld ∅ 0 [].

(** A world in which the caller keeps its create options at address 5. *)
Definition world1 (options : VariableCreateOptions) : World :=
  mkWorld {[ 5%positive := ObjCreate options ]} 0 [].

Definition v1 : Variable_ := mkVariable "var-1" "region" "eu" CategoryEnv false false None.
Definition v2 : Variable_ := mkVariable "var-2" "count" "3" CategoryTerraform true false None.

Definition list_options : VariableListOptions :=
  mkVariableListOptions (1, 20) (Some "org") (Some "ws").

Definition create_options : VariableCreateOptions :=
  mkVariableCreateOptions "preset" (Some "region") (Some "eu") (Some CategoryEnv) None None (Some "ws").

Definition update_options : VariableUpdateOptions :=
  mkVariableUpdateOptions "preset" (Some "region") None None None None.

(** Options that fail validation, one field at a time. *)
Definition no_organization : VariableListOptions :=
  mkVariableListOptions (1, 20) None (Some "ws").
Definition no_workspace : VariableListOptions :=
  mkVariableListOptions (1, 20) (Some "org") (Some "").
Definition no_key : VariableCreateOptions :=
  mkVariableCreateOptions "preset" None (Some "eu") (Some CategoryEnv) None None (Some "ws").
Definition no_value : VariableCreateOptions :=
  mkVariableCreateOptions "preset" (Some "region") (Some "") (Some CategoryEnv) None None (Some "ws").
Definition no_category : VariableCreateOptions :=
  mkVariableCreateOptions "preset" (Some "region") (Some "eu") None None None (Some "ws").
Definition no_workspace_ref : VariableCreateOptions :=
  mkVariableCreateOptions "preset" (Some "region") (Some "eu") (Some "") None None None.

(** Options with an empty category string: they pass validation. *)
Definition empty_category : VariableCreateOptions :=
  mkVariableCreateOptions "" (Some "k") (Some "v") (Some "") None None (Some "ws").

(** The client that serves two variables, and the one that serves none. *)
Definition served : Client := client [v1; v2].
Definition unserved : Client := client [].

(** A client that cannot build a request. *)
Definition refusing : Client := {|
  client_newRequest := λ _ _ _ n, ((None, Some (errors_New "unsupported protocol scheme")), n);
  client_do := client_do served
|}.

(** A client whose [do] fails and still hands back a value with the error. *)
Definition failing : Client := {|
  client_newRequest := client_newRequest served;
  client_do := λ _ _ n, ((any_VariablePtr (Some v1), Some (errors_New "Resource not found")), S n)
|}.

(** A client whose [do] reports success with a response of the wrong shape:
    a sequence with a nil item in it for a slice model, nil otherwise. *)
Definition malformed : Client := {|
  client_newRequest := client_newRequest served;
  client_do := λ _ model n,
    match model with
    | model_VariableSlice _ => ((any_slice [any_VariablePtr (Some v1); any_nil], None), S n)
    | _ => ((any_nil, None), S n)
    end
|}.

End Sample.

(** ** Running the operations *)

Section Run.

Context {ext : Externals}.
Variable validStringID : option string → bool.
Variable client : Client.

Implicit Types (w : World) (o : Obj) (l : loc).

Lemma bind_run {A B} (m : M A) (f : A → M B) w :
  (m ≫= f) w = match m w with
               | (Val a, w') => f a w'
               | (Panicked, w') => (Panicked, w')
               end.
Proof. reflexivity. Qed.

Lemma ret_run {A} (a : A) w : (mret a : M A) w = (Val a, w).
Proof. reflexivity. Qed.

(** The address of a new cell is not in use. *)
Lemma fresh_unused w : heap w !! fresh (dom (heap w)) = None.
Proof. apply not_elem_of_dom, is_fresh. Qed.

(** The world on entry to an operation whose parameter [o] has its
    address taken. *)
Lemma alloc_run o w :
  alloc o w = (Val (fresh (dom (heap w))),
               mkWorld (<[fresh (dom (heap w)) := o]> (heap w)) (conn w) (calls w)).
Proof. reflexivity. Qed.

Lemma load_run l o w : heap w !! l = Some o → load l w = (Val o, w).
Proof. intros H. unfold load. by rewrite H. Qed.

Lemma store_run l o w :
  store l o w = (Val (), mkWorld (<[l := o]> (heap w)) (conn w) (calls w)).
Proof. reflexivity. Qed.

(** A call of [newRequest] with the address of a live cell: the client
    sees the cell as it is now, and the call is recorded. *)
Lemma newRequest_run method path l o w :
  heap w !! l = Some o →
  newRequest client method path (Some l) w =
    let '(r, c) := client_newRequest client method path (Some o) (conn w) in
    (Val r, mkWorld (heap w) c (calls w ++ [CallNewRequest method path (Some o)])).
Proof. intros H. unfold newRequest. by rewrite H. Qed.

Lemma newRequest_run_nil method path w :
  newRequest client method path None w =
    let '(r, c) := client_newRequest client method path None (conn w) in
    (Val r, mkWorld (heap w) c (calls w ++ [CallNewRequest method path None])).
Proof. reflexivity. Qed.

Lemma do_run req model w :
  do client req model w =
    let '(r, c) := client_do client req model (conn w) in
    (Val r, mkWorld (heap w) c (calls w ++ [CallDo req model])).
Proof. reflexivity. Qed.

(** One step of symbolic execution. *)
Ltac step :=
  first
    [ rewrite bind_run
    | rewrite alloc_run
    | rewrite store_run
    | rewrite do_run
    | rewrite newRequest_run_nil
    | erewrite newRequest_run by (simpl; apply lookup_insert_eq)
    | erewrite load_run by (simpl; apply lookup_insert_eq)
    | rewrite ret_run ];
  cbn [heap conn calls fst snd].

Lemma List_invalid options err w :
  VariableListOptions_valid options = Some err →
  List client options w = (Val (None, Some err), (alloc (ObjList options) w).2).
Proof.
  intros Hv. unfold List, load_list. repeat step. by rewrite Hv.
Qed.

Lemma Create_invalid options err w :
  VariableCreateOptions_valid options = Some err →
  Create client options w = (Val (None, Some err), (alloc (ObjCreate options) w).2).
Proof.
  intros Hv. unfold Create, load_create. repeat step. by rewrite Hv.
Qed.

Lemma Create_valid options w :
  VariableCreateOptions_valid options = None →
  Create client options w =
    let payload := ObjCreate (co_set_ID "" options) in
    let h := <[fresh (dom (heap w)) := payload]> (heap w) in
    let '(req, err, c1) := client_newRequest client "POST" "vars" (Some payload) (conn w) in
    let t1 := calls w ++ [CallNewRequest "POST" "vars" (Some payload)] in
    match err with
    | Some e => (Val (None, Some e), mkWorld h c1 t1)
    | None =>
      let '(v, err, c2) := client_do client req (model_VariablePtr zero_Variable) c1 in
      let w2 := mkWorld h c2 (t1 ++ [CallDo req (model_VariablePtr zero_Variable)]) in
      match err with
      | Some e => (Val (None, Some e), w2)
      | None =>
        match v with
        | any_VariablePtr p => (Val (p, None), w2)
        | _ => (Panicked, w2)
        end
      end
    end.
Proof.
  intros Hv. unfold Create, load_create. repeat step. rewrite Hv.
  repeat step. rewrite insert_insert_eq.
  destruct (client_newRequest _ _ _ _ _) as [[req [e|]] c1]; [done|].
  repeat step.
  destruct (client_do _ _ _ _) as [[v [e|]] c2]; [done|].
  by destruct v.
Qed.

Lemma Update_invalid variableID options w :
  validStringID (Some variableID) = false →
  Update validStringID client variableID options w =
    (Val (None, Some (errors_New "Invalid value for variable ID")),
     (alloc (ObjUpdate options) w).2).
Proof.
  intros Hv. unfold Update. repeat step. by rewrite Hv.
Qed.

Lemma Update_valid variableID options w :
  validStringID (Some variableID) = true →
  Update validStringID client variableID options w =
    let payload := ObjUpdate (uo_set_ID variableID options) in
    let path := "vars/" +:+ variableID in
    let h := <[fresh (dom (heap w)) := payload]> (heap w) in
    let '(req, err, c1) := client_newRequest client "PATCH" path (Some payload) (conn w) in
    let t1 := calls w ++ [CallNewRequest "PATCH" path (Some payload)] in
    match err with
    | Some e => (Val (None, Some e), mkWorld h c1 t1)
    | None =>
      let '(v, err, c2) := client_do client req (model_VariablePtr zero_Variable) c1 in
      let w2 := mkWorld h c2 (t1 ++ [CallDo req (model_VariablePtr zero_Variable)]) in
      match err with
      | Some e => (Val (None, Some e), w2)
      | None =>
        match v with
        | any_VariablePtr p => (Val (p, None), w2)
        | _ => (Panicked, w2)
        end
      end
    end.
Proof.
  intros Hv. unfold Update, load_update. repeat step. rewrite Hv. cbn [negb].
  repeat step. rewrite insert_insert_eq.
  destruct (client_newRequest _ _ _ _ _) as [[req [e|]] c1]; [done|].
  repeat step.
  destruct (client_do _ _ _ _) as [[v [e|]] c2]; [done|].
  by destruct v.
Qed.

Lemma Delete_invalid variableID w :
  validStringID (Some variableID) = false →
  Delete validStringID client variableID w =
    (Val (Some (errors_New "Invalid value for variable ID")), w).
Proof.
  intros Hv. unfold Delete. by rewrite Hv.
Qed.

Lemma Delete_valid variableID w :
  validStringID (Some variableID) = true →
  Delete validStringID client variableID w =
    let path := "vars/" +:+ variableID in
    let '(req, err, c1) := client_newRequest client "DELETE" path None (conn w) in
    let t1 := calls w ++ [CallNewRequest "DELETE" path None] in
    match err with
    | Some e => (Val (Some e), mkWorld (heap w) c1 t1)
    | None =>
      let '(_, err, c2) := client_do client req model_nil c1 in
      (Val err, mkWorld (heap w) c2 (t1 ++ [CallDo req model_nil]))
    end.
Proof.
  intros Hv. unfold Delete. rewrite Hv. cbn [negb]. repeat step.
  destruct (client_newRequest _ _ _ _ _) as [[req [e|]] c1]; [done|].
  repeat step.
  by destruct (client_do _ _ _ _) as [[v err] c2].
Qed.

(** The loop of [List] touches nothing but its accumulator. *)
Lemma List_loop_world items vs w : (List_loop items vs w).2 = w.
Proof.
  revert vs. induction items as [|v rest IH]; intros vs; [done|].
  cbn [List_loop]. rewrite bind_run.
  destruct v; try done. cbn [assert_VariablePtr]. rewrite ret_run. apply IH.
Qed.

(** On a response made of [*Variable] values only, the loop appends them
    one after the other. *)
Lemma List_loop_decoded ps vs w :
  List_loop (any_VariablePtr <$> ps) vs w = (Val (foldl append vs ps), w).
Proof.
  revert vs. induction ps as [|p ps IH]; intros vs; [done|].
  cbn [fmap list_fmap List_loop assert_VariablePtr foldl].
  rewrite bind_run, ret_run. apply IH.
Qed.

(** Whenever the loop returns, every item was a [*Variable] and the
    result is the accumulator with all of them appended, in order. *)
Lemma List_loop_inv items vs vs' w w' :
  List_loop items vs w = (Val vs', w') →
  ∃ ps, items = any_VariablePtr <$> ps ∧ vs' = foldl append vs ps.
Proof.
  revert vs. induction items as [|v rest IH]; intros vs.
  - cbn [List_loop]. rewrite ret_run. intros [= <- <-]. by exists [].
  - cbn [List_loop]. rewrite bind_run.
    destruct v as [|p|?|?]; try done. cbn [assert_VariablePtr]. rewrite ret_run.
    intros H. destruct (IH _ H) as (ps & -> & ->). by exists (p :: ps).
Qed.

Lemma foldl_append_elems {A} (ps : list A) (vs : slice A) :
  elems (foldl append vs ps) = elems vs ++ ps.
Proof.
  revert vs. induction ps as [|p ps IH]; intros vs; cbn [foldl].
  - by rewrite app_nil_r.
  - rewrite IH. unfold append. cbn [elems]. by rewrite <- app_assoc.
Qed.

Lemma List_valid options w :
  VariableListOptions_valid options = None →
  List client options w =
    let payload := ObjList options in
    let h := <[fresh (dom (heap w)) := payload]> (heap w) in
    let '(req, err, c1) := client_newRequest client "GET" "vars" (Some payload) (conn w) in
    let t1 := calls w ++ [CallNewRequest "GET" "vars" (Some payload)] in
    match err with
    | Some e => (Val (None, Some e), mkWorld h c1 t1)
    | None =>
      let '(result, err, c2) := client_do client req (model_VariableSlice []) c1 in
      let w2 := mkWorld h c2 (t1 ++ [CallDo req (model_VariableSlice [])]) in
      match err with
      | Some e => (Val (None, Some e), w2)
      | None =>
        match result with
        | any_slice items =>
            match (List_loop items None w2).1 with
            | Val vs => (Val (vs, None), w2)
            | Panicked => (Panicked, w2)
            end
        | _ => (Panicked, w2)
        end
      end
    end.
Proof.
  intros Hv. unfold List, load_list. repeat step. rewrite Hv. repeat step.
  destruct (client_newRequest _ _ _ _ _) as [[req [e|]] c1]; [done|].
  repeat step.
  destruct (client_do _ _ _ _) as [[result [e|]] c2]; [done|].
  destruct result as [|?|items|?]; try done.
  cbn [assert_slice]. repeat step.
  match goal with |- context [List_loop items None ?w2] =>
    pose proof (List_loop_world items None w2) as Hw;
    destruct (List_loop items None w2) as [[vs|] w3] end;
    cbn [fst snd] in *; by subst.
Qed.

(** ** Validation *)

Lemma validString_false v : validString v = false ↔ v = None ∨ v = Some "".
Proof.
  destruct v as [s|]; cbn [validString].
  - rewrite bool_decide_eq_false. split.
    + intros H. right. f_equal. by destruct (decide (s = "")).
    + intros [|[= ->]]; [done|]. by intros [].
  - split; [by left|done].
Qed.

Lemma validString_true v : validString v = true ↔ ∃ s, v = Some s ∧ s ≠ "".
Proof.
  destruct v as [s|]; cbn [validString].
  - rewrite bool_decide_eq_true. split; [by exists s|]. by intros (? & [= <-] & ?).
  - split; [done|]. by intros (? & ? & ?).
Qed.

(** C1: an input that fails local validation (the [valid] check of the
    List or Create options, the identifier check of Update or Delete) makes
    the operation return the validation error with a nil result, and on
    that path the client is never invoked: the record of calls to
    [newRequest] and [do] and the state behind the client are what they
    were before the call. *)
Theorem validation_short_circuits w :
  (∀ options err,
      VariableListOptions_valid options = Some err →
      (List client options w).1 = Val (None, Some err) ∧
      calls (List client options w).2 = calls w ∧
      conn (List client options w).2 = conn w) ∧
  (∀ options err,
      VariableCreateOptions_valid options = Some err →
      (Create client options w).1 = Val (None, Some err) ∧
      calls (Create client options w).2 = calls w ∧
      conn (Create client options w).2 = conn w) ∧
  (∀ variableID options,
      validStringID (Some variableID) = false →
      (Update validStringID client variableID options w).1 =
        Val (None, Some (errors_New "Invalid value for variable ID")) ∧
      calls (Update validStringID client variableID options w).2 = calls w ∧
      conn (Update validStringID client variableID options w).2 = conn w) ∧
  (∀ variableID,
      validStringID (Some variableID) = false →
      (Delete validStringID client variableID w).1 =
        Val (Some (errors_New "Invalid value for variable ID")) ∧
      calls (Delete validStringID client variableID w).2 = calls w ∧
      conn (Delete validStringID client variableID w).2 = conn w).
Proof.
  repeat split.
  all: first [ erewrite List_invalid by eassumption
             | erewrite Create_invalid by eassumption
             | rewrite Update_invalid by assumption
             | rewrite Delete_invalid by assumption ].
  all: reflexivity.
Qed.

(** C2: List checks Organization before Workspace and returns one error:
    when Organization is absent or empty it returns the error
    "Organization is required", whatever Workspace is; when Organization is
    a non-empty string and Workspace is absent or empty it returns the
    error "Workspace is required". *)
Theorem List_validation_order options w :
  (lo_Organization options = None ∨ lo_Organization options = Some "" →
     (List client options w).1 =
       Val (None, Some (errors_New "Organization is required"))) ∧
  (∀ org, lo_Organization options = Some org → org ≠ "" →
     lo_Workspace options = None ∨ lo_Workspace options = Some "" →
     (List client options w).1 =
       Val (None, Some (errors_New "Workspace is required"))).
Proof.
  split.
  - intros H%validString_false.
    rewrite (List_invalid options (errors_New "Organization is required")); [done|].
    unfold VariableListOptions_valid. by rewrite H.
  - intros org Horg Hne H%validString_false.
    assert (validString (lo_Organization options) = true) as Ho
      by (apply validString_true; eauto).
    rewrite (List_invalid options (errors_New "Workspace is required")); [done|].
    unfold VariableListOptions_valid. by rewrite Ho, H.
Qed.

(** C3: Create checks Key, then Value, then Category, then Workspace, and
    returns the error that names the first field that fails. Key and Value
    fail when absent or empty; Category and Workspace fail only when nil
    (an empty category string passes), and options with all four present
    pass validation. *)
Theorem Create_validation_order options w :
  (co_Key options = None ∨ co_Key options = Some "" →
     (Create client options w).1 = Val (None, Some (errors_New "Key is required"))) ∧
  (∀ key, co_Key options = Some key → key ≠ "" →
     (co_Value options = None ∨ co_Value options = Some "" →
        (Create client options w).1 = Val (None, Some (errors_New "Value is required"))) ∧
     (∀ value, co_Value options = Some value → value ≠ "" →
        (co_Category options = None →
           (Create client options w).1 =
             Val (None, Some (errors_New "Category is required"))) ∧
        (∀ category, co_Category options = Some category →
           (co_Workspace options = None →
              (Create client options w).1 =
                Val (None, Some (errors_New "Workspace is required"))) ∧
           (∀ workspace, co_Workspace options = Some workspace →
              VariableCreateOptions_valid options = None)))).
Proof.
  split.
  - intros H%validString_false.
    rewrite (Create_invalid options (errors_New "Key is required")); [done|].
    unfold VariableCreateOptions_valid. by rewrite H.
  - intros key Hkey Hk.
    assert (validString (co_Key options) = true) as Hvk
      by (apply validString_true; eauto).
    split.
    + intros H%validString_false.
      rewrite (Create_invalid options (errors_New "Value is required")); [done|].
      unfold VariableCreateOptions_valid. by rewrite Hvk, H.
    + intros value Hvalue Hv.
      assert (validString (co_Value options) = true) as Hvv
        by (apply validString_true; eauto).
      split.
      * intros Hc.
        rewrite (Create_invalid options (errors_New "Category is required")); [done|].
        unfold VariableCreateOptions_valid. by rewrite Hvk, Hvv, Hc.
      * intros category Hc. split.
        -- intros Hw.
           rewrite (Create_invalid options (errors_New "Workspace is required")); [done|].
           unfold VariableCreateOptions_valid. by rewrite Hvk, Hvv, Hc, Hw.
        -- intros workspace Hw.
           unfold VariableCreateOptions_valid. by rewrite Hvk, Hvv, Hc, Hw.
Qed.

(** ** Requests *)

(** [valid] does not read the internal ID field. *)
Lemma VariableCreateOptions_valid_set_ID id options :
  VariableCreateOptions_valid (co_set_ID id options) = VariableCreateOptions_valid options.
Proof. reflexivity. Qed.

(** C4: when the options pass validation, the payload Create hands to the
    client is the options with the internal ID field set to the empty
    string, and it is the only payload of the call; a caller that pre-sets
    the ID to any value gets the same calls, the same result and the same
    final state as one that does not, so the pre-set value reaches no
    request. *)
Theorem Create_clears_ID options w :
  VariableCreateOptions_valid options = None →
  (∃ payload rest,
      calls (Create client options w).2 =
        calls w ++ CallNewRequest "POST" "vars" (Some (ObjCreate payload)) :: rest ∧
      (rest = [] ∨ ∃ req model, rest = [CallDo req model]) ∧
      payload = co_set_ID "" options ∧
      co_ID payload = "") ∧
  (∀ id, Create client (co_set_ID id options) w = Create client options w).
Proof.
  intros Hv. split.
  - exists (co_set_ID "" options). rewrite (Create_valid _ _ Hv). cbn zeta.
    destruct (client_newRequest _ _ _ _ _) as [[req [e|]] c1].
    { exists []. cbn [snd calls]. eauto. }
    exists [CallDo req (model_VariablePtr zero_Variable)].
    destruct (client_do _ _ _ _) as [[v [e|]] c2]; [|destruct v];
      cbn [snd calls]; rewrite <- app_assoc; repeat split; eauto.
  - intros id. rewrite !Create_valid by done. reflexivity.
Qed.

(** C5: when variableID passes the identifier check, the payload Update
    hands to the client has its internal ID field equal to variableID,
    whatever ID the caller put in the options, and the path of the same
    request is "vars/" followed by that ID. *)
Theorem Update_forces_ID variableID options w :
  validStringID (Some variableID) = true →
  (∃ payload rest,
      calls (Update validStringID client variableID options w).2 =
        calls w ++
        CallNewRequest "PATCH" ("vars/" +:+ uo_ID payload) (Some (ObjUpdate payload)) :: rest ∧
      (rest = [] ∨ ∃ req model, rest = [CallDo req model]) ∧
      payload = uo_set_ID variableID options ∧
      uo_ID payload = variableID) ∧
  (∀ id, Update validStringID client variableID (uo_set_ID id options) w =
         Update validStringID client variableID options w).
Proof.
  intros Hv. split.
  - exists (uo_set_ID variableID options). rewrite (Update_valid _ _ _ Hv). cbn zeta.
    cbn [uo_ID uo_set_ID].
    destruct (client_newRequest _ _ _ _ _) as [[req [e|]] c1].
    { exists []. cbn [snd calls]. eauto. }
    exists [CallDo req (model_VariablePtr zero_Variable)].
    destruct (client_do _ _ _ _) as [[v [e|]] c2]; [|destruct v];
      cbn [snd calls]; rewrite <- app_assoc; repeat split; eauto.
  - intros id. rewrite !Update_valid by done. reflexivity.
Qed.

(** C6: on an input that passes validation each operation issues the
    method and path of its row: List GET on "vars", Create POST on "vars",
    Update PATCH on "vars/" followed by the ID, Delete DELETE on "vars/"
    followed by the ID. The call of [newRequest] is the first one the
    operation makes; [do] follows with the request built, unless building
    it failed. Delete passes no payload and no model to decode into, and
    returns the error of [do] without looking at the body. *)
Theorem method_and_path w :
  (∀ options,
      VariableListOptions_valid options = None →
      calls (List client options w).2 =
        calls w ++
        CallNewRequest "GET" "vars" (Some (ObjList options)) ::
        match (client_newRequest client "GET" "vars"
                 (Some (ObjList options)) (conn w)).1 with
        | (req, None) => [CallDo req (model_VariableSlice [])]
        | (_, Some _) => []
        end) ∧
  (∀ options,
      VariableCreateOptions_valid options = None →
      calls (Create client options w).2 =
        calls w ++
        CallNewRequest "POST" "vars" (Some (ObjCreate (co_set_ID "" options))) ::
        match (client_newRequest client "POST" "vars"
                 (Some (ObjCreate (co_set_ID "" options))) (conn w)).1 with
        | (req, None) => [CallDo req (model_VariablePtr zero_Variable)]
        | (_, Some _) => []
        end) ∧
  (∀ variableID options,
      validStringID (Some variableID) = true →
      calls (Update validStringID client variableID options w).2 =
        calls w ++
        CallNewRequest "PATCH" ("vars/" +:+ variableID)
                       (Some (ObjUpdate (uo_set_ID variableID options))) ::
        match (client_newRequest client "PATCH" ("vars/" +:+ variableID)
                 (Some (ObjUpdate (uo_set_ID variableID options))) (conn w)).1 with
        | (req, None) => [CallDo req (model_VariablePtr zero_Variable)]
        | (_, Some _) => []
        end) ∧
  (∀ variableID,
      validStringID (Some variableID) = true →
      calls (Delete validStringID client variableID w).2 =
        calls w ++
        CallNewRequest "DELETE" ("vars/" +:+ variableID) None ::
        match (client_newRequest client "DELETE" ("vars/" +:+ variableID)
                 None (conn w)).1 with
        | (req, None) => [CallDo req model_nil]
        | (_, Some _) => []
        end) ∧
  (∀ variableID req c1 body err c2,
      validStringID (Some variableID) = true →
      client_newRequest client "DELETE" ("vars/" +:+ variableID) None (conn w) =
        (req, None, c1) →
      client_do client req model_nil c1 = (body, err, c2) →
      (Delete validStringID client variableID w).1 = Val err).
Proof.
  split; [|split; [|split; [|split]]].
  - intros options Hv. rewrite (List_valid _ _ Hv). cbn zeta.
    destruct (client_newRequest _ _ _ _ _) as [[req [e|]] c1]; [done|].
    destruct (client_do _ _ _ _) as [[v [e|]] c2]; cbn [fst snd calls];
      [by rewrite <- app_assoc|].
    destruct v; try by (cbn [snd calls]; rewrite <- app_assoc).
    destruct (List_loop _ _ _).1; by (cbn [snd calls]; rewrite <- app_assoc).
  - intros options Hv. rewrite (Create_valid _ _ Hv). cbn zeta.
    destruct (client_newRequest _ _ _ _ _) as [[req [e|]] c1]; [done|].
    destruct (client_do _ _ _ _) as [[v [e|]] c2]; cbn [fst snd calls];
      [by rewrite <- app_assoc|].
    destruct v; by (cbn [snd calls]; rewrite <- app_assoc).
  - intros variableID options Hv. rewrite (Update_valid _ _ _ Hv). cbn zeta.
    destruct (client_newRequest _ _ _ _ _) as [[req [e|]] c1]; [done|].
    destruct (client_do _ _ _ _) as [[v [e|]] c2]; cbn [fst snd calls];
      [by rewrite <- app_assoc|].
    destruct v; by (cbn [snd calls]; rewrite <- app_assoc).
  - intros variableID Hv. rewrite (Delete_valid _ _ Hv). cbn zeta.
    destruct (client_newRequest _ _ _ _ _) as [[req [e|]] c1]; [done|].
    destruct (client_do _ _ _ _) as [[v err] c2]; cbn [fst snd calls].
    by rewrite <- app_assoc.
  - intros variableID req c1 body err c2 Hv Hn Hd. rewrite (Delete_valid _ _ Hv). cbn zeta.
    by rewrite Hn, Hd.
Qed.

(** ** Results *)

(** C7: a call never returns a non-nil result together with a non-nil
    error: when List returns an error its slice is nil, and when Create or
    Update returns an error its [*Variable] is nil. (Delete returns an
    error only.) *)
Theorem result_or_error w :
  (∀ options vs err w',
      List client options w = (Val (vs, Some err), w') → vs = None) ∧
  (∀ options v err w',
      Create client options w = (Val (v, Some err), w') → v = None) ∧
  (∀ variableID options v err w',
      Update validStringID client variableID options w = (Val (v, Some err), w') →
      v = None).
Proof.
  split; [|split].
  - intros options vs err w'.
    destruct (VariableListOptions_valid options) as [e0|] eqn:Hv.
    { rewrite (List_invalid _ _ _ Hv). by intros [= <- _ _]. }
    rewrite (List_valid _ _ Hv). cbn zeta.
    destruct (client_newRequest _ _ _ _ _) as [[req [e|]] c1]; [by intros [= <- _ _]|].
    destruct (client_do _ _ _ _) as [[result [e|]] c2]; [by intros [= <- _ _]|].
    destruct result; try done. by destruct (List_loop _ _ _).1.
  - intros options v err w'.
    destruct (VariableCreateOptions_valid options) as [e0|] eqn:Hv.
    { rewrite (Create_invalid _ _ _ Hv). by intros [= <- _ _]. }
    rewrite (Create_valid _ _ Hv). cbn zeta.
    destruct (client_newRequest _ _ _ _ _) as [[req [e|]] c1]; [by intros [= <- _ _]|].
    destruct (client_do _ _ _ _) as [[result [e|]] c2]; [by intros [= <- _ _]|].
    by destruct result.
  - intros variableID options v err w'.
    destruct (validStringID (Some variableID)) eqn:Hv.
    2: { rewrite (Update_invalid _ _ _ Hv). by intros [= <- _ _]. }
    rewrite (Update_valid _ _ _ Hv). cbn zeta.
    destruct (client_newRequest _ _ _ _ _) as [[req [e|]] c1]; [by intros [= <- _ _]|].
    destruct (client_do _ _ _ _) as [[result [e|]] c2]; [by intros [= <- _ _]|].
    by destruct result.
Qed.

(** C8: when the options pass validation, the request is built and [do]
    answers with a collection of zero variables and no error, List returns
    a slice of length zero (the nil slice) and a nil error. *)
Theorem List_empty_is_success options w req c1 c2 :
  VariableListOptions_valid options = None →
  client_newRequest client "GET" "vars" (Some (ObjList options)) (conn w) = (req, None, c1) →
  client_do client req (model_VariableSlice []) c1 = (any_slice [], None, c2) →
  ∃ vs, (List client options w).1 = Val (vs, None) ∧ len vs = 0 ∧ elems vs = [] ∧ vs = None.
Proof.
  intros Hv Hn Hd. exists None. rewrite (List_valid _ _ Hv). cbn zeta.
  by rewrite Hn, Hd.
Qed.

(** C9: in a List call whose request was built and executed without
    error, the slice returned is the sequence [do] decoded, element for
    element: a response holding the variables [ps] makes List return a
    slice with exactly the elements [ps], in that order and of that length;
    and whenever List returns a slice, the response was the sequence of its
    elements. *)
Theorem List_preserves_sequence options w req c1 result c2 :
  VariableListOptions_valid options = None →
  client_newRequest client "GET" "vars" (Some (ObjList options)) (conn w) = (req, None, c1) →
  client_do client req (model_VariableSlice []) c1 = (result, None, c2) →
  (∀ ps, result = any_slice (any_VariablePtr <$> ps) →
         ∃ vs, (List client options w).1 = Val (vs, None) ∧
               elems vs = ps ∧ len vs = length ps) ∧
  (∀ vs err, (List client options w).1 = Val (vs, err) →
             err = None ∧ result = any_slice (any_VariablePtr <$> elems vs)).
Proof.
  intros Hv Hn Hd. rewrite (List_valid _ _ Hv). cbn zeta. rewrite Hn, Hd. split.
  - intros ps ->. rewrite List_loop_decoded. cbn [fst].
    exists (foldl append None ps).
    unfold len. by rewrite foldl_append_elems.
  - intros vs err. destruct result as [|?|items|?]; try done.
    destruct (List_loop items None _) as [[vs'|] w3] eqn:Hloop; [|done].
    cbn [fst]. intros [= <- <-].
    destruct (List_loop_inv _ _ _ _ _ Hloop) as (ps & -> & ->).
    by rewrite foldl_append_elems.
Qed.

(** ** The caller's store *)

(** Create and Update leave the store as it was, plus one cell: their
    own copy of the options. *)
Lemma Create_heap options w :
  ∃ copy, heap (Create client options w).2 =
            <[fresh (dom (heap w)) := ObjCreate copy]> (heap w) ∧
          (VariableCreateOptions_valid options = None → copy = co_set_ID "" options).
Proof.
  destruct (VariableCreateOptions_valid options) as [e0|] eqn:Hv.
  { rewrite (Create_invalid _ _ _ Hv). by eexists. }
  rewrite (Create_valid _ _ Hv). cbn zeta.
  destruct (client_newRequest _ _ _ _ _) as [[req [e|]] c1]; [by eexists|].
  destruct (client_do _ _ _ _) as [[result [e|]] c2]; [by eexists|].
  destruct result; by eexists.
Qed.

Lemma Update_heap variableID options w :
  ∃ copy, heap (Update validStringID client variableID options w).2 =
            <[fresh (dom (heap w)) := ObjUpdate copy]> (heap w) ∧
          (validStringID (Some variableID) = true → copy = uo_set_ID variableID options).
Proof.
  destruct (validStringID (Some variableID)) eqn:Hv.
  2: { rewrite (Update_invalid _ _ _ Hv). by eexists. }
  rewrite (Update_valid _ _ _ Hv). cbn zeta.
  destruct (client_newRequest _ _ _ _ _) as [[req [e|]] c1]; [by eexists|].
  destruct (client_do _ _ _ _) as [[result [e|]] c2]; [by eexists|].
  destruct result; by eexists.
Qed.

(** C10: Create and Update receive their options by value. Whatever the
    store holds at an address before the call (the caller's own options
    among the rest) it holds after it, for every input; the write to the ID
    field lands in a cell that did not exist before the call. *)
Theorem options_by_value w a x :
  heap w !! a = Some x →
  (∀ options,
      heap (Create client options w).2 !! a = Some x ∧
      ∃ p copy, heap w !! p = None ∧
                heap (Create client options w).2 !! p = Some (ObjCreate copy) ∧
                (VariableCreateOptions_valid options = None → co_ID copy = "")) ∧
  (∀ variableID options,
      heap (Update validStringID client variableID options w).2 !! a = Some x ∧
      ∃ p copy, heap w !! p = None ∧
                heap (Update validStringID client variableID options w).2 !! p =
                  Some (ObjUpdate copy) ∧
                (validStringID (Some variableID) = true → uo_ID copy = variableID)).
Proof.
  intros Ha.
  assert (fresh (dom (heap w)) ≠ a) as Hne.
  { intros <-. by rewrite fresh_unused in Ha. }
  split.
  - intros options. destruct (Create_heap options w) as (copy & -> & Ho). split.
    + by rewrite lookup_insert_ne.
    + exists (fresh (dom (heap w))), copy. split; [apply fresh_unused|].
      split; [apply lookup_insert_eq|]. by intros ->%Ho.
  - intros variableID options.
    destruct (Update_heap variableID options w) as (copy & -> & Ho). split.
    + by rewrite lookup_insert_ne.
    + exists (fresh (dom (heap w))), copy. split; [apply fresh_unused|].
      split; [apply lookup_insert_eq|]. by intros ->%Ho.
Qed.

(** ** Errors of the client *)

(** X1: when the options pass validation and [newRequest] fails, each of
    the four operations returns that very error with a nil result; [do] is
    not called, and the state behind the client is the one [newRequest]
    left. *)
Theorem newRequest_error_is_returned w e c1 :
  (∀ options req,
      VariableListOptions_valid options = None →
      client_newRequest client "GET" "vars" (Some (ObjList options)) (conn w) =
        (req, Some e, c1) →
      (List client options w).1 = Val (None, Some e) ∧
      conn (List client options w).2 = c1 ∧
      calls (List client options w).2 =
        calls w ++ [CallNewRequest "GET" "vars" (Some (ObjList options))]) ∧
  (∀ options req,
      VariableCreateOptions_valid options = None →
      client_newRequest client "POST" "vars"
        (Some (ObjCreate (co_set_ID "" options))) (conn w) = (req, Some e, c1) →
      (Create client options w).1 = Val (None, Some e) ∧
      conn (Create client options w).2 = c1 ∧
      calls (Create client options w).2 =
        calls w ++ [CallNewRequest "POST" "vars" (Some (ObjCreate (co_set_ID "" options)))]) ∧
  (∀ variableID options req,
      validStringID (Some variableID) = true →
      client_newRequest client "PATCH" ("vars/" +:+ variableID)
        (Some (ObjUpdate (uo_set_ID variableID options))) (conn w) = (req, Some e, c1) →
      (Update validStringID client variableID options w).1 = Val (None, Some e) ∧
      conn (Update validStringID client variableID options w).2 = c1 ∧
      calls (Update validStringID client variableID options w).2 =
        calls w ++ [CallNewRequest "PATCH" ("vars/" +:+ variableID)
                                   (Some (ObjUpdate (uo_set_ID variableID options)))]) ∧
  (∀ variableID req,
      validStringID (Some variableID) = true →
      client_newRequest client "DELETE" ("vars/" +:+ variableID) None (conn w) =
        (req, Some e, c1) →
      (Delete validStringID client variableID w).1 = Val (Some e) ∧
      conn (Delete validStringID client variableID w).2 = c1 ∧
      calls (Delete validStringID client variableID w).2 =
        calls w ++ [CallNewRequest "DELETE" ("vars/" +:+ variableID) None]).
Proof.
  split; [|split; [|split]].
  - intros options req Hv Hn. rewrite (List_valid _ _ Hv). cbn zeta. by rewrite Hn.
  - intros options req Hv Hn. rewrite (Create_valid _ _ Hv). cbn zeta. by rewrite Hn.
  - intros variableID options req Hv Hn. rewrite (Update_valid _ _ _ Hv). cbn zeta.
    by rewrite Hn.
  - intros variableID req Hv Hn. rewrite (Delete_valid _ _ Hv). cbn zeta. by rewrite Hn.
Qed.

(** X2: when the request is built and [do] fails, the operation returns the
    error of [do] as it is. List, Create and Update return a nil result with
    it, whatever value [do] handed back beside the error. *)
Theorem do_error_is_returned w e c1 c2 :
  (∀ options req result,
      VariableListOptions_valid options = None →
      client_newRequest client "GET" "vars" (Some (ObjList options)) (conn w) =
        (req, None, c1) →
      client_do client req (model_VariableSlice []) c1 = (result, Some e, c2) →
      (List client options w).1 = Val (None, Some e) ∧
      conn (List client options w).2 = c2) ∧
  (∀ options req v,
      VariableCreateOptions_valid options = None →
      client_newRequest client "POST" "vars"
        (Some (ObjCreate (co_set_ID "" options))) (conn w) = (req, None, c1) →
      client_do client req (model_VariablePtr zero_Variable) c1 = (v, Some e, c2) →
      (Create client options w).1 = Val (None, Some e) ∧
      conn (Create client options w).2 = c2) ∧
  (∀ variableID options req v,
      validStringID (Some variableID) = true →
      client_newRequest client "PATCH" ("vars/" +:+ variableID)
        (Some (ObjUpdate (uo_set_ID variableID options))) (conn w) = (req, None, c1) →
      client_do client req (model_VariablePtr zero_Variable) c1 = (v, Some e, c2) →
      (Update validStringID client variableID options w).1 = Val (None, Some e) ∧
      conn (Update validStringID client variableID options w).2 = c2) ∧
  (∀ variableID req body,
      validStringID (Some variableID) = true →
      client_newRequest client "DELETE" ("vars/" +:+ variableID) None (conn w) =
        (req, None, c1) →
      client_do client req model_nil c1 = (body, Some e, c2) →
      (Delete validStringID client variableID w).1 = Val (Some e) ∧
      conn (Delete validStringID client variableID w).2 = c2).
Proof.
  split; [|split; [|split]].
  - intros options req result Hv Hn Hd. rewrite (List_valid _ _ Hv). cbn zeta.
    by rewrite Hn, Hd.
  - intros options req v Hv Hn Hd. rewrite (Create_valid _ _ Hv). cbn zeta.
    by rewrite Hn, Hd.
  - intros variableID options req v Hv Hn Hd. rewrite (Update_valid _ _ _ Hv). cbn zeta.
    by rewrite Hn, Hd.
  - intros variableID req body Hv Hn Hd. rewrite (Delete_valid _ _ Hv). cbn zeta.
    by rewrite Hn, Hd.
Qed.

(** X3: when the request is built and [do] answers with a [*Variable] and
    no error, Create and Update return that pointer as it is, with a nil
    error. The pointer may be nil: a nil error does not promise a variable. *)
Theorem Variable_is_passed_through w p c1 c2 :
  (∀ options req,
      VariableCreateOptions_valid options = None →
      client_newRequest client "POST" "vars"
        (Some (ObjCreate (co_set_ID "" options))) (conn w) = (req, None, c1) →
      client_do client req (model_VariablePtr zero_Variable) c1 =
        (any_VariablePtr p, None, c2) →
      (Create client options w).1 = Val (p, None)) ∧
  (∀ variableID options req,
      validStringID (Some variableID) = true →
      client_newRequest client "PATCH" ("vars/" +:+ variableID)
        (Some (ObjUpdate (uo_set_ID variableID options))) (conn w) = (req, None, c1) →
      client_do client req (model_VariablePtr zero_Variable) c1 =
        (any_VariablePtr p, None, c2) →
      (Update validStringID client variableID options w).1 = Val (p, None)).
Proof.
  split.
  - intros options req Hv Hn Hd. rewrite (Create_valid _ _ Hv). cbn zeta.
    by rewrite Hn, Hd.
  - intros variableID options req Hv Hn Hd. rewrite (Update_valid _ _ _ Hv). cbn zeta.
    by rewrite Hn, Hd.
Qed.

(** ** Panics *)

(** X4: List panics exactly when its options pass validation, the request
    is built, [do] reports no error and the response is not a
    [[]interface{}] made of [*Variable] values only. In every other case it
    returns. *)
Theorem List_panics_iff options w :
  (List client options w).1 = Panicked ↔
  VariableListOptions_valid options = None ∧
  ∃ req c1 result c2,
    client_newRequest client "GET" "vars" (Some (ObjList options)) (conn w) = (req, None, c1) ∧
    client_do client req (model_VariableSlice []) c1 = (result, None, c2) ∧
    ∀ ps, result ≠ any_slice (any_VariablePtr <$> ps).
Proof.
  destruct (VariableListOptions_valid options) as [e0|] eqn:Hv.
  { rewrite (List_invalid _ _ _ Hv). split; [done|]. by intros [? _]. }
  rewrite (List_valid _ _ Hv). cbn zeta.
  destruct (client_newRequest _ _ _ _ _) as [[req [e|]] c1].
  { split; [done|]. by intros (_ & ? & ? & ? & ? & ? & _). }
  destruct (client_do client req _ c1) as [[result [e|]] c2] eqn:Hd.
  { split; [done|]. intros (_ & ? & ? & ? & ? & [= <- <-] & Hd' & _).
    rewrite Hd in Hd'. done. }
  split.
  - intros Hp. split; [done|]. exists req, c1, result, c2.
    split; [done|]. split; [done|]. intros ps ->.
    rewrite List_loop_decoded in Hp. done.
  - intros (_ & ? & ? & result' & ? & [= <- <-] & Hd' & Hshape).
    rewrite Hd in Hd'. injection Hd' as <- <-.
    destruct result as [|?|items|?]; try done.
    destruct (List_loop items None _) as [[vs|] w3] eqn:Hloop; [|done].
    destruct (List_loop_inv _ _ _ _ _ Hloop) as (ps & -> & _).
    by destruct (Hshape ps).
Qed.

(** X5: Create and Update panic exactly when the input passes validation,
    the request is built, [do] reports no error and the value it returns is
    not a [*Variable] (a nil interface value, for one). *)
Theorem Create_Update_panic_iff w :
  (∀ options,
      (Create client options w).1 = Panicked ↔
      VariableCreateOptions_valid options = None ∧
      ∃ req c1 v c2,
        client_newRequest client "POST" "vars"
          (Some (ObjCreate (co_set_ID "" options))) (conn w) = (req, None, c1) ∧
        client_do client req (model_VariablePtr zero_Variable) c1 = (v, None, c2) ∧
        ∀ p, v ≠ any_VariablePtr p) ∧
  (∀ variableID options,
      (Update validStringID client variableID options w).1 = Panicked ↔
      validStringID (Some variableID) = true ∧
      ∃ req c1 v c2,
        client_newRequest client "PATCH" ("vars/" +:+ variableID)
          (Some (ObjUpdate (uo_set_ID variableID options))) (conn w) = (req, None, c1) ∧
        client_do client req (model_VariablePtr zero_Variable) c1 = (v, None, c2) ∧
        ∀ p, v ≠ any_VariablePtr p).
Proof.
  split.
  - intros options.
    destruct (VariableCreateOptions_valid options) as [e0|] eqn:Hv.
    { rewrite (Create_invalid _ _ _ Hv). split; [done|]. by intros [? _]. }
    rewrite (Create_valid _ _ Hv). cbn zeta.
    destruct (client_newRequest _ _ _ _ _) as [[req [e|]] c1].
    { split; [done|]. by intros (_ & ? & ? & ? & ? & ? & _). }
    destruct (client_do client req _ c1) as [[v [e|]] c2] eqn:Hd.
    { split; [done|]. intros (_ & ? & ? & ? & ? & [= <- <-] & Hd' & _).
      rewrite Hd in Hd'. done. }
    split.
    + intros Hp. split; [done|]. exists req, c1, v, c2.
      split; [done|]. split; [done|]. intros p ->. done.
    + intros (_ & ? & ? & v' & ? & [= <- <-] & Hd' & Hshape).
      rewrite Hd in Hd'. injection Hd' as <- <-.
      destruct v as [|p|?|?]; try done. by destruct (Hshape p).
  - intros variableID options.
    destruct (validStringID (Some variableID)) eqn:Hv.
    2: { rewrite (Update_invalid _ _ _ Hv). split; [done|]. by intros [? _]. }
    rewrite (Update_valid _ _ _ Hv). cbn zeta.
    destruct (client_newRequest _ _ _ _ _) as [[req [e|]] c1].
    { split; [done|]. by intros (_ & ? & ? & ? & ? & ? & _). }
    destruct (client_do client req _ c1) as [[v [e|]] c2] eqn:Hd.
    { split; [done|]. intros (_ & ? & ? & ? & ? & [= <- <-] & Hd' & _).
      rewrite Hd in Hd'. done. }
    split.
    + intros Hp. split; [done|]. exists req, c1, v, c2.
      split; [done|]. split; [done|]. intros p ->. done.
    + intros (_ & ? & ? & v' & ? & [= <- <-] & Hd' & Hshape).
      rewrite Hd in Hd'. injection Hd' as <- <-.
      destruct v as [|p|?|?]; try done. by destruct (Hshape p).
Qed.

(** X6: Delete returns for every identifier and every client, whatever
    [do] hands back as a body, and it leaves the store as it found it. *)
Theorem Delete_always_returns variableID w :
  (∃ err, (Delete validStringID client variableID w).1 = Val err) ∧
  heap (Delete validStringID client variableID w).2 = heap w.
Proof.
  destruct (validStringID (Some variableID)) eqn:Hv.
  2: { rewrite (Delete_invalid _ _ Hv). eauto. }
  rewrite (Delete_valid _ _ Hv). cbn zeta.
  destruct (client_newRequest _ _ _ _ _) as [[req [e|]] c1]; [eauto|].
  destruct (client_do _ _ _ _) as [[body err] c2]. eauto.
Qed.

(** ** How often the client is called *)

Lemma app_cons_ne {A} (l : list A) x r : l ++ x :: r ≠ l.
Proof.
  intros H. apply (f_equal length) in H. rewrite length_app in H.
  cbn [length] in H. lia.
Qed.

(** The calls an operation adds to the record: none on an input that fails
    validation, else one [newRequest] and at most one [do] after it. *)
Lemma List_calls options w :
  (VariableListOptions_valid options ≠ None ∧ calls (List client options w).2 = calls w) ∨
  (VariableListOptions_valid options = None ∧
   ∃ rest, calls (List client options w).2 =
             calls w ++ CallNewRequest "GET" "vars" (Some (ObjList options)) :: rest ∧
           (rest = [] ∨ ∃ req model, rest = [CallDo req model])).
Proof.
  destruct (VariableListOptions_valid options) as [e0|] eqn:Hv.
  { left. by rewrite (List_invalid _ _ _ Hv). }
  right. split; [done|]. rewrite (List_valid _ _ Hv). cbn zeta.
  destruct (client_newRequest _ _ _ _ _) as [[req [e|]] c1]; [exists []; eauto|].
  exists [CallDo req (model_VariableSlice [])].
  destruct (client_do _ _ _ _) as [[v [e|]] c2]; [|destruct v; [| |destruct (List_loop _ _ _).1|]];
    cbn [snd calls]; rewrite <- app_assoc; eauto.
Qed.

Lemma Create_calls options w :
  (VariableCreateOptions_valid options ≠ None ∧ calls (Create client options w).2 = calls w) ∨
  (VariableCreateOptions_valid options = None ∧
   ∃ rest, calls (Create client options w).2 =
             calls w ++
             CallNewRequest "POST" "vars" (Some (ObjCreate (co_set_ID "" options))) :: rest ∧
           (rest = [] ∨ ∃ req model, rest = [CallDo req model])).
Proof.
  destruct (VariableCreateOptions_valid options) as [e0|] eqn:Hv.
  { left. by rewrite (Create_invalid _ _ _ Hv). }
  right. split; [done|]. rewrite (Create_valid _ _ Hv). cbn zeta.
  destruct (client_newRequest _ _ _ _ _) as [[req [e|]] c1]; [exists []; eauto|].
  exists [CallDo req (model_VariablePtr zero_Variable)].
  destruct (client_do _ _ _ _) as [[v [e|]] c2]; [|destruct v];
    cbn [snd calls]; rewrite <- app_assoc; eauto.
Qed.

Lemma Update_calls variableID options w :
  (validStringID (Some variableID) = false ∧
   calls (Update validStringID client variableID options w).2 = calls w) ∨
  (validStringID (Some variableID) = true ∧
   ∃ rest, calls (Update validStringID client variableID options w).2 =
             calls w ++
             CallNewRequest "PATCH" ("vars/" +:+ variableID)
                            (Some (ObjUpdate (uo_set_ID variableID options))) :: rest ∧
           (rest = [] ∨ ∃ req model, rest = [CallDo req model])).
Proof.
  destruct (validStringID (Some variableID)) eqn:Hv.
  2: { left. by rewrite (Update_invalid _ _ _ Hv). }
  right. split; [done|]. rewrite (Update_valid _ _ _ Hv). cbn zeta.
  destruct (client_newRequest _ _ _ _ _) as [[req [e|]] c1]; [exists []; eauto|].
  exists [CallDo req (model_VariablePtr zero_Variable)].
  destruct (client_do _ _ _ _) as [[v [e|]] c2]; [|destruct v];
    cbn [snd calls]; rewrite <- app_assoc; eauto.
Qed.

Lemma Delete_calls variableID w :
  (validStringID (Some variableID) = false ∧
   calls (Delete validStringID client variableID w).2 = calls w) ∨
  (validStringID (Some variableID) = true ∧
   ∃ rest, calls (Delete validStringID client variableID w).2 =
             calls w ++ CallNewRequest "DELETE" ("vars/" +:+ variableID) None :: rest ∧
           (rest = [] ∨ ∃ req model, rest = [CallDo req model])).
Proof.
  destruct (validStringID (Some variableID)) eqn:Hv.
  2: { left. by rewrite (Delete_invalid _ _ Hv). }
  right. split; [done|]. rewrite (Delete_valid _ _ Hv). cbn zeta.
  destruct (client_newRequest _ _ _ _ _) as [[req [e|]] c1]; [exists []; eauto|].
  exists [CallDo req model_nil].
  destruct (client_do _ _ _ _) as [[v e] c2];
    cbn [snd calls]; rewrite <- app_assoc; eauto.
Qed.

(** How the two shapes of the record read as an equivalence and a bound. *)
Lemma calls_iff_bound (before after : list Call) (P Q : Prop) c :
  (P ∧ after = before) ∨
  (Q ∧ ∃ rest, after = before ++ c :: rest ∧ (rest = [] ∨ ∃ req model, rest = [CallDo req model])) →
  (Q → ¬ P) →
  (after = before ↔ P) ∧ length after ≤ length before + 2.
Proof.
  intros [[HP ->]|(HQ & rest & -> & Hrest)] HQP.
  - split; [done|lia].
  - split.
    + split; [by intros ?%app_cons_ne|]. intros HP. by destruct (HQP HQ).
    + rewrite length_app. destruct Hrest as [->|(? & ? & ->)]; cbn [length]; lia.
Qed.

(** X7: an operation calls the client exactly when its input passes
    validation: the record of calls is unchanged if and only if validation
    fails. No operation ever makes more than two calls, so none retries. *)
Theorem client_called_iff_valid w :
  (∀ options,
      (calls (List client options w).2 = calls w ↔
       VariableListOptions_valid options ≠ None) ∧
      length (calls (List client options w).2) ≤ length (calls w) + 2) ∧
  (∀ options,
      (calls (Create client options w).2 = calls w ↔
       VariableCreateOptions_valid options ≠ None) ∧
      length (calls (Create client options w).2) ≤ length (calls w) + 2) ∧
  (∀ variableID options,
      (calls (Update validStringID client variableID options w).2 = calls w ↔
       validStringID (Some variableID) = false) ∧
      length (calls (Update validStringID client variableID options w).2) ≤
        length (calls w) + 2) ∧
  (∀ variableID,
      (calls (Delete validStringID client variableID w).2 = calls w ↔
       validStringID (Some variableID) = false) ∧
      length (calls (Delete validStringID client variableID w).2) ≤ length (calls w) + 2).
Proof.
  split; [|split; [|split]].
  - intros options. eapply calls_iff_bound; [apply List_calls|]. congruence.
  - intros options. eapply calls_iff_bound; [apply Create_calls|]. congruence.
  - intros variableID options. eapply calls_iff_bound; [apply Update_calls|]. congruence.
  - intros variableID. eapply calls_iff_bound; [apply Delete_calls|]. congruence.
Qed.

(** X8: every payload Create or Update passes to the client agrees with
    the caller's options on all fields but the internal ID: Key, Value,
    Category, HCL and Sensitive (and Workspace for Create) are sent as the
    caller set them, the unset ones unset. *)
Theorem payload_keeps_fields w :
  (∀ options added method path payload,
      calls (Create client options w).2 = calls w ++ added →
      CallNewRequest method path (Some (ObjCreate payload)) ∈ added →
      co_Key payload = co_Key options ∧ co_Value payload = co_Value options ∧
      co_Category payload = co_Category options ∧ co_HCL payload = co_HCL options ∧
      co_Sensitive payload = co_Sensitive options ∧
      co_Workspace payload = co_Workspace options) ∧
  (∀ variableID options added method path payload,
      calls (Update validStringID client variableID options w).2 = calls w ++ added →
      CallNewRequest method path (Some (ObjUpdate payload)) ∈ added →
      uo_Key payload = uo_Key options ∧ uo_Value payload = uo_Value options ∧
      uo_Category payload = uo_Category options ∧ uo_HCL payload = uo_HCL options ∧
      uo_Sensitive payload = uo_Sensitive options).
Proof.
  split.
  - intros options added method path payload Hcalls Hin.
    destruct (Create_calls options w) as [[_ H]|(_ & rest & H & Hrest)];
      rewrite H in Hcalls.
    + rewrite <- (app_nil_r (calls w)) in Hcalls at 1.
      apply app_inv_head in Hcalls. subst added. by apply not_elem_of_nil in Hin.
    + apply app_inv_head in Hcalls. subst added.
      apply elem_of_cons in Hin as [[= _ _ ->]|Hin]; [done|].
      destruct Hrest as [->|(? & ? & ->)].
      * by apply not_elem_of_nil in Hin.
      * by apply list_elem_of_singleton in Hin.
  - intros variableID options added method path payload Hcalls Hin.
    destruct (Update_calls variableID options w) as [[_ H]|(_ & rest & H & Hrest)];
      rewrite H in Hcalls.
    + rewrite <- (app_nil_r (calls w)) in Hcalls at 1.
      apply app_inv_head in Hcalls. subst added. by apply not_elem_of_nil in Hin.
    + apply app_inv_head in Hcalls. subst added.
      apply elem_of_cons in Hin as [[= _ _ ->]|Hin]; [done|].
      destruct Hrest as [->|(? & ? & ->)].
      * by apply not_elem_of_nil in Hin.
      * by apply list_elem_of_singleton in Hin.
Qed.

(** ** The slice List returns *)

(** Appending never yields an empty non-nil slice. *)
Lemma foldl_append_not_empty {A} (ps : list A) (vs : slice A) :
  vs ≠ Some [] → foldl append vs ps ≠ Some [].
Proof.
  intros Hvs H. pose proof (foldl_append_elems ps vs) as He. rewrite H in He.
  cbn [elems] in He. symmetry in He. apply app_eq_nil in He as [_ ->].
  by cbn [foldl] in H.
Qed.

(** X9: the slice List returns is nil exactly when it has no elements: List
    never returns an empty slice that is not nil, neither on success nor with
    an error. *)
Theorem List_nil_iff_empty options w vs err :
  (List client options w).1 = Val (vs, err) →
  vs ≠ Some [] ∧ (vs = None ↔ len vs = 0).
Proof.
  intros H.
  assert (vs ≠ Some []) as Hne.
  { destruct (VariableListOptions_valid options) as [e0|] eqn:Hv.
    { rewrite (List_invalid _ _ _ Hv) in H. by injection H as <- _. }
    rewrite (List_valid _ _ Hv) in H. cbn zeta in H.
    destruct (client_newRequest _ _ _ _ _) as [[req [e|]] c1];
      [by injection H as <- _|].
    destruct (client_do _ _ _ _) as [[result [e|]] c2]; [by injection H as <- _|].
    destruct result as [|?|items|?]; try done.
    destruct (List_loop items None _) as [[vs'|] w3] eqn:Hloop; [|done].
    cbn [fst] in H. injection H as <- _.
    destruct (List_loop_inv _ _ _ _ _ Hloop) as (ps & _ & ->).
    by apply foldl_append_not_empty. }
  split; [done|]. split; [by intros ->|].
  destruct vs as [[|v l]|]; [done| |done]. cbn. lia.
Qed.

(** X10: List never writes to its options. Whatever the store holds at an
    address before the call it holds after it, and the copy List hands to the
    client by address is still equal to the caller's options when List
    returns or panics. *)
Theorem List_leaves_options w a x options :
  heap w !! a = Some x →
  heap (List client options w).2 !! a = Some x ∧
  ∃ p, heap w !! p = None ∧ heap (List client options w).2 !! p = Some (ObjList options).
Proof.
  intros Ha.
  assert (fresh (dom (heap w)) ≠ a) as Hne.
  { intros <-. by rewrite fresh_unused in Ha. }
  assert (heap (List client options w).2 =
            <[fresh (dom (heap w)) := ObjList options]> (heap w)) as ->.
  { destruct (VariableListOptions_valid options) as [e0|] eqn:Hv.
    { by rewrite (List_invalid _ _ _ Hv). }
    rewrite (List_valid _ _ Hv). cbn zeta.
    destruct (client_newRequest _ _ _ _ _) as [[req [e|]] c1]; [done|].
    destruct (client_do _ _ _ _) as [[result [e|]] c2]; [done|].
    destruct result; try done. by destruct (List_loop _ _ _).1. }
  split; [by rewrite lookup_insert_ne|].
  exists (fresh (dom (heap w))). split; [apply fresh_unused|apply lookup_insert_eq].
Qed.

(** ** Where a return comes from *)

(** X11: an error an operation returns is either the validation error of
    its input or an error the client returned in this very call, unchanged:
    the operations make up no error of their own and wrap none. *)
Theorem error_origin w e :
  (∀ options vs,
      (List client options w).1 = Val (vs, Some e) →
      VariableListOptions_valid options = Some e ∨
      (∃ req c1, client_newRequest client "GET" "vars" (Some (ObjList options)) (conn w) =
                   (req, Some e, c1)) ∨
      (∃ req c1 result c2,
          client_newRequest client "GET" "vars" (Some (ObjList options)) (conn w) =
            (req, None, c1) ∧
          client_do client req (model_VariableSlice []) c1 = (result, Some e, c2))) ∧
  (∀ options v,
      (Create client options w).1 = Val (v, Some e) →
      VariableCreateOptions_valid options = Some e ∨
      (∃ req c1, client_newRequest client "POST" "vars"
                   (Some (ObjCreate (co_set_ID "" options))) (conn w) = (req, Some e, c1)) ∨
      (∃ req c1 result c2,
          client_newRequest client "POST" "vars"
            (Some (ObjCreate (co_set_ID "" options))) (conn w) = (req, None, c1) ∧
          client_do client req (model_VariablePtr zero_Variable) c1 = (result, Some e, c2))) ∧
  (∀ variableID options v,
      (Update validStringID client variableID options w).1 = Val (v, Some e) →
      (validStringID (Some variableID) = false ∧
       e = errors_New "Invalid value for variable ID") ∨
      (∃ req c1, client_newRequest client "PATCH" ("vars/" +:+ variableID)
                   (Some (ObjUpdate (uo_set_ID variableID options))) (conn w) =
                   (req, Some e, c1)) ∨
      (∃ req c1 result c2,
          client_newRequest client "PATCH" ("vars/" +:+ variableID)
            (Some (ObjUpdate (uo_set_ID variableID options))) (conn w) = (req, None, c1) ∧
          client_do client req (model_VariablePtr zero_Variable) c1 = (result, Some e, c2))) ∧
  (∀ variableID,
      (Delete validStringID client variableID w).1 = Val (Some e) →
      (validStringID (Some variableID) = false ∧
       e = errors_New "Invalid value for variable ID") ∨
      (∃ req c1, client_newRequest client "DELETE" ("vars/" +:+ variableID) None (conn w) =
                   (req, Some e, c1)) ∨
      (∃ req c1 body c2,
          client_newRequest client "DELETE" ("vars/" +:+ variableID) None (conn w) =
            (req, None, c1) ∧
          client_do client req model_nil c1 = (body, Some e, c2))).
Proof.
  split; [|split; [|split]].
  - intros options vs.
    destruct (VariableListOptions_valid options) as [e0|] eqn:Hv.
    { rewrite (List_invalid _ _ _ Hv). intros [= _ <-]. by left. }
    rewrite (List_valid _ _ Hv). cbn zeta.
    destruct (client_newRequest _ _ _ _ _) as [[req [e1|]] c1].
    { intros [= _ <-]. right. left. eauto. }
    destruct (client_do client req _ c1) as [[result [e2|]] c2] eqn:Hd.
    { intros [= _ <-]. right. right. eauto 6. }
    destruct result; try done. by destruct (List_loop _ _ _).1.
  - intros options v.
    destruct (VariableCreateOptions_valid options) as [e0|] eqn:Hv.
    { rewrite (Create_invalid _ _ _ Hv). intros [= _ <-]. by left. }
    rewrite (Create_valid _ _ Hv). cbn zeta.
    destruct (client_newRequest _ _ _ _ _) as [[req [e1|]] c1].
    { intros [= _ <-]. right. left. eauto. }
    destruct (client_do client req _ c1) as [[result [e2|]] c2] eqn:Hd.
    { intros [= _ <-]. right. right. eauto 6. }
    by destruct result.
  - intros variableID options v.
    destruct (validStringID (Some variableID)) eqn:Hv.
    2: { rewrite (Update_invalid _ _ _ Hv). intros [= _ <-]. by left. }
    rewrite (Update_valid _ _ _ Hv). cbn zeta.
    destruct (client_newRequest _ _ _ _ _) as [[req [e1|]] c1].
    { intros [= _ <-]. right. left. eauto. }
    destruct (client_do client req _ c1) as [[result [e2|]] c2] eqn:Hd.
    { intros [= _ <-]. right. right. eauto 6. }
    by destruct result.
  - intros variableID.
    destruct (validStringID (Some variableID)) eqn:Hv.
    2: { rewrite (Delete_invalid _ _ Hv). intros [= <-]. by left. }
    rewrite (Delete_valid _ _ Hv). cbn zeta.
    destruct (client_newRequest _ _ _ _ _) as [[req [e1|]] c1].
    { intros [= <-]. right. left. eauto. }
    destruct (client_do client req _ c1) as [[body err] c2] eqn:Hd.
    intros [= ->]. right. right. eauto 6.
Qed.

(** X12: a nil error is never reported without the exchange with the
    client: when an operation returns a nil error, its input passed
    validation, the request was built and [do] reported no error. What
    Create and Update return is then the pointer [do] returned, and what
    Delete returns does not depend on the body. *)
Theorem success_origin w :
  (∀ options vs,
      (List client options w).1 = Val (vs, None) →
      VariableListOptions_valid options = None ∧
      ∃ req c1 c2,
        client_newRequest client "GET" "vars" (Some (ObjList options)) (conn w) =
          (req, None, c1) ∧
        client_do client req (model_VariableSlice []) c1 =
          (any_slice (any_VariablePtr <$> elems vs), None, c2)) ∧
  (∀ options p,
      (Create client options w).1 = Val (p, None) →
      VariableCreateOptions_valid options = None ∧
      ∃ req c1 c2,
        client_newRequest client "POST" "vars"
          (Some (ObjCreate (co_set_ID "" options))) (conn w) = (req, None, c1) ∧
        client_do client req (model_VariablePtr zero_Variable) c1 =
          (any_VariablePtr p, None, c2)) ∧
  (∀ variableID options p,
      (Update validStringID client variableID options w).1 = Val (p, None) →
      validStringID (Some variableID) = true ∧
      ∃ req c1 c2,
        client_newRequest client "PATCH" ("vars/" +:+ variableID)
          (Some (ObjUpdate (uo_set_ID variableID options))) (conn w) = (req, None, c1) ∧
        client_do client req (model_VariablePtr zero_Variable) c1 =
          (any_VariablePtr p, None, c2)) ∧
  (∀ variableID,
      (Delete validStringID client variableID w).1 = Val None →
      validStringID (Some variableID) = true ∧
      ∃ req c1 body c2,
        client_newRequest client "DELETE" ("vars/" +:+ variableID) None (conn w) =
          (req, None, c1) ∧
        client_do client req model_nil c1 = (body, None, c2)).
Proof.
  split; [|split; [|split]].
  - intros options vs.
    destruct (VariableListOptions_valid options) as [e0|] eqn:Hv.
    { by rewrite (List_invalid _ _ _ Hv). }
    rewrite (List_valid _ _ Hv). cbn zeta.
    destruct (client_newRequest _ _ _ _ _) as [[req [e1|]] c1]; [done|].
    destruct (client_do client req _ c1) as [[result [e2|]] c2] eqn:Hd; [done|].
    destruct result as [|?|items|?]; try done.
    destruct (List_loop items None _) as [[vs'|] w3] eqn:Hloop; [|done].
    cbn [fst]. intros [= <-].
    destruct (List_loop_inv _ _ _ _ _ Hloop) as (ps & -> & ->).
    rewrite foldl_append_elems. cbn [elems app]. eauto 6.
  - intros options p.
    destruct (VariableCreateOptions_valid options) as [e0|] eqn:Hv.
    { by rewrite (Create_invalid _ _ _ Hv). }
    rewrite (Create_valid _ _ Hv). cbn zeta.
    destruct (client_newRequest _ _ _ _ _) as [[req [e1|]] c1]; [done|].
    destruct (client_do client req _ c1) as [[result [e2|]] c2] eqn:Hd; [done|].
    destruct result; try done. intros [= <-]. eauto 6.
  - intros variableID options p.
    destruct (validStringID (Some variableID)) eqn:Hv.
    2: { by rewrite (Update_invalid _ _ _ Hv). }
    rewrite (Update_valid _ _ _ Hv). cbn zeta.
    destruct (client_newRequest _ _ _ _ _) as [[req [e1|]] c1]; [done|].
    destruct (client_do client req _ c1) as [[result [e2|]] c2] eqn:Hd; [done|].
    destruct result; try done. intros [= <-]. eauto 6.
  - intros variableID.
    destruct (validStringID (Some variableID)) eqn:Hv.
    2: { by rewrite (Delete_invalid _ _ Hv). }
    rewrite (Delete_valid _ _ Hv). cbn zeta.
    destruct (client_newRequest _ _ _ _ _) as [[req [e1|]] c1]; [done|].
    destruct (client_do client req _ c1) as [[body err] c2] eqn:Hd.
    intros [= ->]. eauto 8.
Qed.

End Run.


(** ** The theorems at work on the test double *)

Section OnSample.

#[local] Existing Instance Sample.ext.

Lemma validation_short_circuits_witness :
  (VariableListOptions_valid Sample.no_organization = Some (errors_New "Organization is required") ∧
   (List Sample.served Sample.no_organization Sample.world0).1 =
     Val (None, Some (errors_New "Organization is required")) ∧
   calls (List Sample.served Sample.no_organization Sample.world0).2 = [] ∧
   conn (List Sample.served Sample.no_organization Sample.world0).2 = 0) ∧
  (VariableCreateOptions_valid Sample.no_key = Some (errors_New "Key is required") ∧
   (Create Sample.served Sample.no_key Sample.world0).1 = Val (None, Some (errors_New "Key is required")) ∧
   calls (Create Sample.served Sample.no_key Sample.world0).2 = [] ∧
   conn (Create Sample.served Sample.no_key Sample.world0).2 = 0) ∧
  (Sample.validStringID (Some "var/1") = false ∧
   (Update Sample.validStringID Sample.served "var/1" Sample.update_options Sample.world0).1 =
     Val (None, Some (errors_New "Invalid value for variable ID")) ∧
   calls (Update Sample.validStringID Sample.served "var/1" Sample.update_options Sample.world0).2 = [] ∧
   conn (Update Sample.validStringID Sample.served "var/1" Sample.update_options Sample.world0).2 = 0) ∧
  (Sample.validStringID (Some "") = false ∧
   (Delete Sample.validStringID Sample.served "" Sample.world0).1 =
     Val (Some (errors_New "Invalid value for variable ID")) ∧
   calls (Delete Sample.validStringID Sample.served "" Sample.world0).2 = [] ∧
   conn (Delete Sample.validStringID Sample.served "" Sample.world0).2 = 0).
Proof.
  destruct (validation_short_circuits Sample.validStringID Sample.served Sample.world0)
    as (HList & HCreate & HUpdate & HDelete).
  split; [|split; [|split]].
  - split; [reflexivity|]. apply HList. reflexivity.
  - split; [reflexivity|]. apply HCreate. reflexivity.
  - split; [reflexivity|]. apply HUpdate. reflexivity.
  - split; [reflexivity|]. apply HDelete. reflexivity.
Defined.

Lemma List_validation_order_witness :
  (lo_Organization Sample.no_organization = None ∧
   (List Sample.served Sample.no_organization Sample.world0).1 =
     Val (None, Some (errors_New "Organization is required"))) ∧
  (lo_Organization Sample.no_workspace = Some "org" ∧ "org" ≠ "" ∧
   lo_Workspace Sample.no_workspace = Some "" ∧
   (List Sample.served Sample.no_workspace Sample.world0).1 =
     Val (None, Some (errors_New "Workspace is required"))).
Proof.
  split.
  - split; [reflexivity|].
    apply (List_validation_order Sample.served Sample.no_organization Sample.world0).
    left. reflexivity.
  - assert ("org" ≠ "") as Hne by discriminate.
    split; [reflexivity|]. split; [exact Hne|]. split; [reflexivity|].
    apply (proj2 (List_validation_order Sample.served Sample.no_workspace Sample.world0) "org");
      [reflexivity|exact Hne|right; reflexivity].
Defined.

Lemma Create_validation_order_witness :
  (Create Sample.served Sample.no_key Sample.world0).1 = Val (None, Some (errors_New "Key is required")) ∧
  (Create Sample.served Sample.no_value Sample.world0).1 = Val (None, Some (errors_New "Value is required")) ∧
  (Create Sample.served Sample.no_category Sample.world0).1 =
    Val (None, Some (errors_New "Category is required")) ∧
  (Create Sample.served Sample.no_workspace_ref Sample.world0).1 =
    Val (None, Some (errors_New "Workspace is required")) ∧
  VariableCreateOptions_valid Sample.empty_category = None.
Proof.
  assert ("region" ≠ "") as Hregion by discriminate.
  assert ("eu" ≠ "") as Heu by discriminate.
  assert ("k" ≠ "") as Hk by discriminate.
  assert ("v" ≠ "") as Hv by discriminate.
  split; [|split; [|split; [|split]]].
  - apply (Create_validation_order Sample.served Sample.no_key Sample.world0). left. reflexivity.
  - apply (proj2 (Create_validation_order Sample.served Sample.no_value Sample.world0) "region");
      [reflexivity|exact Hregion|]. right. reflexivity.
  - destruct (Create_validation_order Sample.served Sample.no_category Sample.world0) as [_ H].
    destruct (H "region" eq_refl Hregion) as [_ H'].
    destruct (H' "eu" eq_refl Heu) as [Hc _]. apply Hc. reflexivity.
  - destruct (Create_validation_order Sample.served Sample.no_workspace_ref Sample.world0) as [_ H].
    destruct (H "region" eq_refl Hregion) as [_ H'].
    destruct (H' "eu" eq_refl Heu) as [_ Hc].
    destruct (Hc "" eq_refl) as [Hw _]. apply Hw. reflexivity.
  - destruct (Create_validation_order Sample.served Sample.empty_category Sample.world0)
      as [_ H].
    destruct (H "k" eq_refl Hk) as [_ H'].
    destruct (H' "v" eq_refl Hv) as [_ Hc].
    destruct (Hc "" eq_refl) as [_ Hw]. apply (Hw "ws"). reflexivity.
Defined.

Lemma Create_clears_ID_witness :
  VariableCreateOptions_valid Sample.create_options = None ∧
  (∃ payload rest,
      calls (Create Sample.served Sample.create_options Sample.world0).2 =
        calls Sample.world0 ++
        CallNewRequest "POST" "vars" (Some (ObjCreate payload)) :: rest ∧
      (rest = [] ∨ ∃ req model, rest = [CallDo req model]) ∧
      payload = co_set_ID "" Sample.create_options ∧
      co_ID payload = "") ∧
  (∀ id, Create Sample.served (co_set_ID id Sample.create_options) Sample.world0 =
         Create Sample.served Sample.create_options Sample.world0).
Proof.
  split; [reflexivity|].
  apply (Create_clears_ID Sample.served Sample.create_options Sample.world0).
  reflexivity.
Defined.

Lemma Update_forces_ID_witness :
  Sample.validStringID (Some "var-1") = true ∧
  (∃ payload rest,
      calls (Update Sample.validStringID Sample.served "var-1"
                    Sample.update_options Sample.world0).2 =
        calls Sample.world0 ++
        CallNewRequest "PATCH" ("vars/" +:+ uo_ID payload) (Some (ObjUpdate payload)) :: rest ∧
      (rest = [] ∨ ∃ req model, rest = [CallDo req model]) ∧
      payload = uo_set_ID "var-1" Sample.update_options ∧
      uo_ID payload = "var-1") ∧
  (∀ id, Update Sample.validStringID Sample.served "var-1"
                (uo_set_ID id Sample.update_options) Sample.world0 =
         Update Sample.validStringID Sample.served "var-1"
                Sample.update_options Sample.world0).
Proof.
  split; [reflexivity|].
  apply (Update_forces_ID Sample.validStringID Sample.served "var-1"
                          Sample.update_options Sample.world0).
  reflexivity.
Defined.

Lemma method_and_path_witness :
  calls (List Sample.served Sample.list_options Sample.world0).2 =
    [CallNewRequest "GET" "vars" (Some (ObjList Sample.list_options));
     CallDo (Some ("GET", "vars")) (model_VariableSlice [])] ∧
  calls (Create Sample.served Sample.create_options Sample.world0).2 =
    [CallNewRequest "POST" "vars" (Some (ObjCreate (co_set_ID "" Sample.create_options)));
     CallDo (Some ("POST", "vars")) (model_VariablePtr zero_Variable)] ∧
  calls (Update Sample.validStringID Sample.served "var-1"
                Sample.update_options Sample.world0).2 =
    [CallNewRequest "PATCH" "vars/var-1"
                    (Some (ObjUpdate (uo_set_ID "var-1" Sample.update_options)));
     CallDo (Some ("PATCH", "vars/var-1")) (model_VariablePtr zero_Variable)] ∧
  calls (Delete Sample.validStringID Sample.served "var-1" Sample.world0).2 =
    [CallNewRequest "DELETE" "vars/var-1" None;
     CallDo (Some ("DELETE", "vars/var-1")) model_nil] ∧
  (Delete Sample.validStringID Sample.served "var-1" Sample.world0).1 = Val None.
Proof.
  destruct (method_and_path Sample.validStringID Sample.served Sample.world0)
    as (HList & HCreate & HUpdate & HDelete & HDelete').
  split; [|split; [|split; [|split]]].
  - apply (HList Sample.list_options). reflexivity.
  - apply (HCreate Sample.create_options). reflexivity.
  - apply (HUpdate "var-1" Sample.update_options). reflexivity.
  - apply (HDelete "var-1"). reflexivity.
  - apply (HDelete' "var-1" (Some ("DELETE", "vars/var-1")) 0 any_nil None 1); reflexivity.
Defined.

Lemma result_or_error_witness :
  (List Sample.served Sample.no_organization Sample.world0 =
     (Val (None, Some (errors_New "Organization is required")),
      (List Sample.served Sample.no_organization Sample.world0).2) ∧
   (None : slice (option Variable_)) = None) ∧
  (Create Sample.unserved Sample.create_options Sample.world0 =
     (Val (None, Some (errors_New "Resource not found")),
      (Create Sample.unserved Sample.create_options Sample.world0).2) ∧
   (None : option Variable_) = None) ∧
  (Update Sample.validStringID Sample.served "var/1" Sample.update_options Sample.world0 =
     (Val (None, Some (errors_New "Invalid value for variable ID")),
      (Update Sample.validStringID Sample.served "var/1"
              Sample.update_options Sample.world0).2) ∧
   (None : option Variable_) = None).
Proof.
  destruct (result_or_error Sample.validStringID Sample.served Sample.world0)
    as (HList & _ & HUpdate).
  destruct (result_or_error Sample.validStringID Sample.unserved Sample.world0)
    as (_ & HCreate & _).
  split; [|split].
  - split; [reflexivity|].
    apply (HList Sample.no_organization None (errors_New "Organization is required")
                 (List Sample.served Sample.no_organization Sample.world0).2).
    reflexivity.
  - split; [reflexivity|].
    apply (HCreate Sample.create_options None (errors_New "Resource not found")
                   (Create Sample.unserved Sample.create_options Sample.world0).2).
    reflexivity.
  - split; [reflexivity|].
    apply (HUpdate "var/1" Sample.update_options None
                   (errors_New "Invalid value for variable ID")
                   (Update Sample.validStringID Sample.served "var/1"
                           Sample.update_options Sample.world0).2).
    reflexivity.
Defined.

Lemma List_empty_is_success_witness :
  VariableListOptions_valid Sample.list_options = None ∧
  ∃ vs, (List Sample.unserved Sample.list_options Sample.world0).1 = Val (vs, None) ∧
        len vs = 0 ∧ elems vs = [] ∧ vs = None.
Proof.
  split; [reflexivity|].
  apply (List_empty_is_success Sample.unserved Sample.list_options Sample.world0
                               (Some ("GET", "vars")) 0 1); reflexivity.
Defined.

Lemma List_preserves_sequence_witness :
  VariableListOptions_valid Sample.list_options = None ∧
  (∀ ps, any_slice (any_VariablePtr <$> [Some Sample.v1; Some Sample.v2]) =
           any_slice (any_VariablePtr <$> ps) →
         ∃ vs, (List Sample.served Sample.list_options Sample.world0).1 = Val (vs, None) ∧
               elems vs = ps ∧ len vs = length ps) ∧
  (∀ vs err, (List Sample.served Sample.list_options Sample.world0).1 = Val (vs, err) →
             err = None ∧
             any_slice (any_VariablePtr <$> [Some Sample.v1; Some Sample.v2]) =
               any_slice (any_VariablePtr <$> elems vs)).
Proof.
  split; [reflexivity|].
  apply (List_preserves_sequence Sample.served Sample.list_options Sample.world0
                                 (Some ("GET", "vars")) 0 _ 1); reflexivity.
Defined.

Lemma options_by_value_witness :
  heap (Sample.world1 Sample.create_options) !! 5%positive =
    Some (ObjCreate Sample.create_options) ∧
  heap (Create Sample.served Sample.create_options
               (Sample.world1 Sample.create_options)).2 !! 5%positive =
    Some (ObjCreate Sample.create_options).
Proof.
  split; [reflexivity|].
  apply (options_by_value Sample.validStringID Sample.served
                          (Sample.world1 Sample.create_options) 5%positive
                          (ObjCreate Sample.create_options)).
  reflexivity.
Defined.

Lemma newRequest_error_is_returned_witness :
  (List Sample.refusing Sample.list_options Sample.world0).1 =
    Val (None, Some (errors_New "unsupported protocol scheme")) ∧
  calls (Create Sample.refusing Sample.create_options Sample.world0).2 =
    calls Sample.world0 ++
    [CallNewRequest "POST" "vars" (Some (ObjCreate (co_set_ID "" Sample.create_options)))] ∧
  (Update Sample.validStringID Sample.refusing "var-1" Sample.update_options Sample.world0).1 =
    Val (None, Some (errors_New "unsupported protocol scheme")) ∧
  (Delete Sample.validStringID Sample.refusing "var-1" Sample.world0).1 =
    Val (Some (errors_New "unsupported protocol scheme")).
Proof.
  destruct (newRequest_error_is_returned Sample.validStringID Sample.refusing Sample.world0
              (errors_New "unsupported protocol scheme") 0)
    as (HList & HCreate & HUpdate & HDelete).
  split; [|split; [|split]].
  - apply (HList Sample.list_options None); reflexivity.
  - apply (HCreate Sample.create_options None); reflexivity.
  - apply (HUpdate "var-1" Sample.update_options None); reflexivity.
  - apply (HDelete "var-1" None); reflexivity.
Defined.

Lemma do_error_is_returned_witness :
  (List Sample.failing Sample.list_options Sample.world0).1 =
    Val (None, Some (errors_New "Resource not found")) ∧
  (Create Sample.failing Sample.create_options Sample.world0).1 =
    Val (None, Some (errors_New "Resource not found")) ∧
  (Update Sample.validStringID Sample.failing "var-1" Sample.update_options Sample.world0).1 =
    Val (None, Some (errors_New "Resource not found")) ∧
  (Delete Sample.validStringID Sample.failing "var-1" Sample.world0).1 =
    Val (Some (errors_New "Resource not found")).
Proof.
  destruct (do_error_is_returned Sample.validStringID Sample.failing Sample.world0
              (errors_New "Resource not found") 0 1)
    as (HList & HCreate & HUpdate & HDelete).
  split; [|split; [|split]].
  - apply (HList Sample.list_options (Some ("GET", "vars"))
                 (any_VariablePtr (Some Sample.v1))); reflexivity.
  - apply (HCreate Sample.create_options (Some ("POST", "vars"))
                   (any_VariablePtr (Some Sample.v1))); reflexivity.
  - apply (HUpdate "var-1" Sample.update_options (Some ("PATCH", "vars/var-1"))
                   (any_VariablePtr (Some Sample.v1))); reflexivity.
  - apply (HDelete "var-1" (Some ("DELETE", "vars/var-1"))
                   (any_VariablePtr (Some Sample.v1))); reflexivity.
Defined.

Lemma Variable_is_passed_through_witness :
  (Create Sample.served Sample.create_options Sample.world0).1 = Val (Some Sample.v1, None) ∧
  (Update Sample.validStringID Sample.served "var-1" Sample.update_options Sample.world0).1 =
    Val (Some Sample.v1, None).
Proof.
  destruct (Variable_is_passed_through Sample.validStringID Sample.served Sample.world0
              (Some Sample.v1) 0 1) as (HCreate & HUpdate).
  split.
  - apply (HCreate Sample.create_options (Some ("POST", "vars"))); reflexivity.
  - apply (HUpdate "var-1" Sample.update_options (Some ("PATCH", "vars/var-1"))); reflexivity.
Defined.

Lemma List_panics_iff_witness :
  (List Sample.malformed Sample.list_options Sample.world0).1 = Panicked.
Proof.
  apply (List_panics_iff Sample.malformed Sample.list_options Sample.world0).
  split; [reflexivity|].
  exists (Some ("GET", "vars")), 0, (any_slice [any_VariablePtr (Some Sample.v1); any_nil]), 1.
  split; [reflexivity|]. split; [reflexivity|].
  intros [|p1 [|p2 ps]]; discriminate.
Defined.

Lemma Create_Update_panic_iff_witness :
  (Create Sample.malformed Sample.create_options Sample.world0).1 = Panicked ∧
  (Update Sample.validStringID Sample.malformed "var-1" Sample.update_options
          Sample.world0).1 = Panicked.
Proof.
  destruct (Create_Update_panic_iff Sample.validStringID Sample.malformed Sample.world0)
    as (HCreate & HUpdate).
  split.
  - apply HCreate. split; [reflexivity|].
    exists (Some ("POST", "vars")), 0, any_nil, 1.
    split; [reflexivity|]. split; [reflexivity|]. discriminate.
  - apply HUpdate. split; [reflexivity|].
    exists (Some ("PATCH", "vars/var-1")), 0, any_nil, 1.
    split; [reflexivity|]. split; [reflexivity|]. discriminate.
Defined.

Lemma client_called_iff_valid_witness :
  calls (List Sample.served Sample.no_organization Sample.world0).2 = calls Sample.world0 ∧
  VariableCreateOptions_valid Sample.create_options = None ∧
  Sample.validStringID (Some "var/1") = false ∧
  calls (Delete Sample.validStringID Sample.served "" Sample.world0).2 = calls Sample.world0.
Proof.
  destruct (client_called_iff_valid Sample.validStringID Sample.served Sample.world0)
    as (HList & HCreate & HUpdate & HDelete).
  split; [|split; [|split]].
  - apply (HList Sample.no_organization). discriminate.
  - destruct (VariableCreateOptions_valid Sample.create_options) eqn:Hv; [|reflexivity].
    assert (calls (Create Sample.served Sample.create_options Sample.world0).2 =
            calls Sample.world0) as Hc.
    { apply (HCreate Sample.create_options). rewrite Hv. discriminate. }
    discriminate Hc.
  - apply (HUpdate "var/1" Sample.update_options). reflexivity.
  - apply (HDelete ""). reflexivity.
Defined.

Lemma payload_keeps_fields_witness :
  co_Key (co_set_ID "" Sample.create_options) = Some "region" ∧
  uo_Value (uo_set_ID "var-1" Sample.update_options) = None.
Proof.
  destruct (payload_keeps_fields Sample.validStringID Sample.served Sample.world0)
    as (HCreate & HUpdate).
  split.
  - refine (proj1 (HCreate Sample.create_options
                     [CallNewRequest "POST" "vars"
                        (Some (ObjCreate (co_set_ID "" Sample.create_options)));
                      CallDo (Some ("POST", "vars")) (model_VariablePtr zero_Variable)]
                     "POST" "vars" (co_set_ID "" Sample.create_options) _ _)).
    + reflexivity.
    + apply list_elem_of_here.
  - refine (proj1 (proj2 (HUpdate "var-1" Sample.update_options
                     [CallNewRequest "PATCH" "vars/var-1"
                        (Some (ObjUpdate (uo_set_ID "var-1" Sample.update_options)));
                      CallDo (Some ("PATCH", "vars/var-1")) (model_VariablePtr zero_Variable)]
                     "PATCH" "vars/var-1" (uo_set_ID "var-1" Sample.update_options) _ _))).
    + reflexivity.
    + apply list_elem_of_here.
Defined.

Lemma List_nil_iff_empty_witness :
  (Some [Some Sample.v1; Some Sample.v2] : slice (option Variable_)) ≠ Some [] ∧
  ((Some [Some Sample.v1; Some Sample.v2] : slice (option Variable_)) = None ↔
   len (Some [Some Sample.v1; Some Sample.v2] : slice (option Variable_)) = 0).
Proof.
  apply (List_nil_iff_empty Sample.served Sample.list_options Sample.world0
                            (Some [Some Sample.v1; Some Sample.v2]) None).
  reflexivity.
Defined.

Lemma List_leaves_options_witness :
  heap (List Sample.served Sample.list_options
             (Sample.world1 Sample.create_options)).2 !! 5%positive =
    Some (ObjCreate Sample.create_options).
Proof.
  apply (List_leaves_options Sample.served (Sample.world1 Sample.create_options) 5%positive
                             (ObjCreate Sample.create_options) Sample.list_options).
  reflexivity.
Defined.

Lemma error_origin_witness :
  (Sample.validStringID (Some "var-1") = false ∧
   errors_New "Resource not found" = errors_New "Invalid value for variable ID") ∨
  (∃ req c1, client_newRequest Sample.failing "DELETE" ("vars/" +:+ "var-1") None
               (conn Sample.world0) = (req, Some (errors_New "Resource not found"), c1)) ∨
  (∃ req c1 body c2,
      client_newRequest Sample.failing "DELETE" ("vars/" +:+ "var-1") None
        (conn Sample.world0) = (req, None, c1) ∧
      client_do Sample.failing req model_nil c1 =
        (body, Some (errors_New "Resource not found"), c2)).
Proof.
  destruct (error_origin Sample.validStringID Sample.failing Sample.world0
              (errors_New "Resource not found")) as (_ & _ & _ & HDelete).
  apply (HDelete "var-1"). reflexivity.
Defined.

Lemma success_origin_witness :
  VariableCreateOptions_valid Sample.create_options = None ∧
  ∃ req c1 c2,
    client_newRequest Sample.served "POST" "vars"
      (Some (ObjCreate (co_set_ID "" Sample.create_options))) (conn Sample.world0) =
      (req, None, c1) ∧
    client_do Sample.served req (model_VariablePtr zero_Variable) c1 =
      (any_VariablePtr (Some Sample.v1), None, c2).
Proof.
  destruct (success_origin Sample.validStringID Sample.served Sample.world0)
    as (_ & HCreate & _).
  apply (HCreate Sample.create_options (Some Sample.v1)). reflexivity.
Defined.

End OnSample.

(** ** The local cases of variable_test.go

    The test cases that need no server, run against the test double. *)

Section Tests.

#[local] Existing Instance Sample.ext.

Example TestVariablesList_missing_organization :
  (List Sample.served (mkVariableListOptions (0, 0) None (Some "ws")) Sample.world0).1 =
    Val (None, Some (errors_New "Organization is required")).
Proof. reflexivity. Qed.

Example TestVariablesList_missing_workspace :
  (List Sample.served (mkVariableListOptions (0, 0) (Some "org") None) Sample.world0).1 =
    Val (None, Some (errors_New "Workspace is required")).
Proof. reflexivity. Qed.

Example TestVariablesList_missing_both :
  (List Sample.served (mkVariableListOptions (0, 0) None None) Sample.world0).1 =
    Val (None, Some (errors_New "Organization is required")).
Proof. reflexivity. Qed.

Example TestVariablesList_valid_options :
  (List Sample.served Sample.list_options Sample.world0).1 =
    Val (Some [Some Sample.v1; Some Sample.v2], None).
Proof. reflexivity. Qed.

Example TestVariablesCreate_missing_key :
  (Create Sample.served Sample.no_key Sample.world0).1 =
    Val (None, Some (errors_New "Key is required")).
Proof. reflexivity. Qed.

Example TestVariablesCreate_missing_value :
  (Create Sample.served Sample.no_value Sample.world0).1 =
    Val (None, Some (errors_New "Value is required")).
Proof. reflexivity. Qed.

Example TestVariablesCreate_missing_category :
  (Create Sample.served Sample.no_category Sample.world0).1 =
    Val (None, Some (errors_New "Category is required")).
Proof. reflexivity. Qed.

Example TestVariablesCreate_missing_workspace :
  (Create Sample.served Sample.no_workspace_ref Sample.world0).1 =
    Val (None, Some (errors_New "Workspace is required")).
Proof. reflexivity. Qed.

Example TestVariablesUpdate_invalid_ID :
  Update Sample.validStringID Sample.served "! / nope" (mkVariableUpdateOptions "" None None None None None)
         Sample.world0 =
    (Val (None, Some (errors_New "Invalid value for variable ID")),
     mkWorld {[ 1%positive := ObjUpdate (mkVariableUpdateOptions "" None None None None None) ]} 0 []).
Proof. reflexivity. Qed.

Example TestVariablesDelete_invalid_ID :
  Delete Sample.validStringID Sample.served "! / nope" Sample.world0 =
    (Val (Some (errors_New "Invalid value for variable ID")), Sample.world0).
Proof. reflexivity. Qed.

Example TestVariablesDelete_valid_options :
  Delete Sample.validStringID Sample.served "var-1" Sample.world0 =
    (Val None,
     mkWorld ∅ 1 [CallNewRequest "DELETE" "vars/var-1" None;
                  CallDo (Some ("DELETE", "vars/var-1")) model_nil]).
Proof. reflexivity. Qed.

End Tests.
